(** * alignment_analysis: a shallow embedding of [ppnet/alignment_analysis.py]

    The module has a single function, [run_analysis].  It is embedded
    here as a program in a small writer-and-exception monad: the writer
    part records the effects on the file system and on the log, the
    exception part is the Python exception that ends the run.  The pure
    sub-computations (path parsing, the alignment check, the conversion
    of distances, the two rankings) are separate definitions that
    [run_analysis] calls, named after the variables of the source. *)

From Stdlib Require Import ZArith QArith List String Ascii Bool Lia.
From Stdlib Require Import Permutation Sorted DecimalString Reals Lra.
Import ListNotations.

Local Open Scope string_scope.
Local Open Scope Z_scope.

(** ** Python exceptions and results *)

Inductive exn : Type :=
| ValueError (msg : string)
| AttributeError (msg : string)
| AssertionError (msg : string)
| NameError (name : string)
| IndexError
| KeyError (key : string)
| RuntimeError (msg : string)
| OSError (path : string).

Inductive result (A : Type) : Type :=
| Ok (a : A)
| Raise (e : exn).
Arguments Ok {A} a.
Arguments Raise {A} e.

(** ** Strings: the fragment of [re], [int] and [str] that the module uses *)

Module PyStr.

Definition is_digit (c : ascii) : bool :=
  let n := nat_of_ascii c in (Nat.leb 48 n && Nat.leb n 57)%bool.

Definition digit_value (c : ascii) : Z := Z.of_nat (nat_of_ascii c) - 48.

(** The separators of the pattern [r'\\|/']: a backslash or a slash. *)
Definition is_sep (c : ascii) : bool :=
  (Ascii.eqb c "/" || Ascii.eqb c "\")%bool.

(** [re.split(r'\\|/', s)]: the pieces between separators, empty pieces
    kept, so a string with [n] separators gives [n + 1] pieces. *)
Fixpoint re_split (s : string) : list string :=
  match s with
  | EmptyString => [EmptyString]
  | String c r =>
      if is_sep c then EmptyString :: re_split r
      else match re_split r with
           | h :: t => String c h :: t
           | [] => [String c EmptyString]
           end
  end.

(** The slice [l[-n:]] for [n >= 1]: the last [n] elements, or all of
    [l] when it has fewer. *)
Definition last_n {A} (n : nat) (l : list A) : list A :=
  skipn (List.length l - n) l.

(** The longest run of digits at the start of [s]. *)
Fixpoint take_digits (s : string) : string :=
  match s with
  | EmptyString => EmptyString
  | String c r => if is_digit c then String c (take_digits r) else EmptyString
  end.

(** [re.search(r'\d+', s)]: the leftmost, longest run of digits, or
    [None]. *)
Fixpoint re_search_digits (s : string) : option string :=
  match s with
  | EmptyString => None
  | String c r =>
      if is_digit c then Some (String c (take_digits r))
      else re_search_digits r
  end.

Fixpoint int_acc (acc : Z) (s : string) : Z :=
  match s with
  | EmptyString => acc
  | String c r => int_acc (10 * acc + digit_value c) r
  end.

(** [int(s)] on a string of digits. *)
Definition int (s : string) : Z := int_acc 0 s.

(** [str(n)] on an integer. *)
Definition str (n : Z) : string := NilZero.string_of_int (Z.to_int n).

(** What "a digit run read in base 10" means: the sum of the digits
    weighted by the powers of ten of their places. *)
Fixpoint decimal_value (s : string) : Z :=
  match s with
  | EmptyString => 0
  | String c r => digit_value c * 10 ^ Z.of_nat (String.length r) + decimal_value r
  end.

Fixpoint all_digits (s : string) : bool :=
  match s with
  | EmptyString => true
  | String c r => (is_digit c && all_digits r)%bool
  end.

Fixpoint no_digit (s : string) : bool :=
  match s with
  | EmptyString => true
  | String c r => (negb (is_digit c) && no_digit r)%bool
  end.

(** [s] does not begin with a digit. *)
Definition starts_without_digit (s : string) : bool :=
  match s with
  | EmptyString => true
  | String c _ => negb (is_digit c)
  end.

End PyStr.

(** ** Paths: [os.path.join] and [os.path.dirname] of [posixpath] *)

Module PyPath.

Definition starts_with_slash (s : string) : bool :=
  match s with String c _ => Ascii.eqb c "/" | EmptyString => false end.

Fixpoint ends_with_slash (s : string) : bool :=
  match s with
  | EmptyString => false
  | String c EmptyString => Ascii.eqb c "/"
  | String _ r => ends_with_slash r
  end.

(** One step of [join]: an absolute component replaces what came
    before, otherwise it is appended after a single slash. *)
Definition join2 (path b : string) : string :=
  if starts_with_slash b then b
  else if (String.eqb path "" || ends_with_slash path)%bool then path ++ b
  else path ++ "/" ++ b.

Definition join (a : string) (p : list string) : string :=
  fold_left join2 p a.

Fixpoint all_slashes (s : string) : bool :=
  match s with
  | EmptyString => true
  | String c r => (Ascii.eqb c "/" && all_slashes r)%bool
  end.

(** [(head, strip)] where [head] is [s] up to and including its last
    slash and [strip] is [head] without its trailing slashes. *)
Fixpoint dirname_aux (s : string) : string * string :=
  match s with
  | EmptyString => (EmptyString, EmptyString)
  | String c r =>
      let '(head, strip) := dirname_aux r in
      if String.eqb head "" then
        if Ascii.eqb c "/" then ("/", EmptyString) else (EmptyString, EmptyString)
      else
        (String c head,
         if (Ascii.eqb c "/" && String.eqb strip "")%bool then EmptyString
         else String c strip)
  end.

Definition dirname (p : string) : string :=
  let '(head, strip) := dirname_aux p in
  if (negb (String.eqb head "") && negb (all_slashes head))%bool then strip
  else head.

End PyPath.

(** ** Python lists and tensors *)

Module Py.

(** [l[k]] with Python's negative indices; out of range raises
    [IndexError]. *)
Definition index {A} (l : list A) (k : Z) : result A :=
  let n := Z.of_nat (List.length l) in
  let k' := if k <? 0 then n + k else k in
  if ((0 <=? k') && (k' <? n))%bool then
    match nth_error l (Z.to_nat k') with
    | Some a => Ok a
    | None => Raise IndexError
    end
  else Raise IndexError.

(** [range(lo, hi)]. *)
Definition range (lo hi : Z) : list Z :=
  map (fun k => lo + Z.of_nat k) (seq 0 (Z.to_nat (hi - lo))).

(** [len(set(l))]: the number of distinct values of [l]. *)
Definition len_set (l : list Z) : Z :=
  Z.of_nat (List.length (nodup Z.eq_dec l)).

(** [a, b = l]. *)
Definition unpack2 {A} (l : list A) : result (A * A) :=
  match l with
  | [a; b] => Ok (a, b)
  | _ => Raise (ValueError "wrong number of values to unpack (expected 2)")
  end.

(** [a, b, c, d = l]. *)
Definition unpack4 {A} (l : list A) : result (A * A * A * A) :=
  match l with
  | [a; b; c; d] => Ok (a, b, c, d)
  | _ => Raise (ValueError "wrong number of values to unpack (expected 4)")
  end.

Fixpoint map_result {A B} (f : A -> result B) (l : list A) : result (list B) :=
  match l with
  | [] => Ok []
  | a :: r =>
      match f a with
      | Raise e => Raise e
      | Ok b => match map_result f r with
                | Raise e => Raise e
                | Ok bs => Ok (b :: bs)
                end
      end
  end.

End Py.

(** Tensors of floats are lists of rationals: what the module does with
    them (comparison, sorting, adding an integer) depends only on their
    order and on addition. *)
Module Torch.

Fixpoint argmax_from (best_i : nat) (best : Q) (i : nat) (l : list Q) : nat :=
  match l with
  | [] => best_i
  | x :: r =>
      if Qle_bool x best then argmax_from best_i best (S i) r
      else argmax_from i x (S i) r
  end.

(** [torch.argmax] of a vector: the index of the first maximal value;
    an empty vector is an error. *)
Definition argmax (l : list Q) : result nat :=
  match l with
  | [] => Raise IndexError
  | x :: r => Ok (argmax_from 0%nat x 1%nat r)
  end.

(** Column [p] of a matrix given by its rows. *)
Definition column (p : nat) (m : list (list Q)) : result (list Q) :=
  Py.map_result (fun row => Py.index row (Z.of_nat p)) m.

(** [torch.argmax(m, dim=0)] of a matrix with at least one row: for
    each column, the row of its first maximal value. *)
Definition argmax_dim0 (m : list (list Q)) : result (list Z) :=
  match m with
  | [] => Raise IndexError
  | row0 :: _ =>
      Py.map_result
        (fun p => match column p m with
                  | Raise e => Raise e
                  | Ok col => match argmax col with
                              | Raise e => Raise e
                              | Ok k => Ok (Z.of_nat k)
                              end
                  end)
        (seq 0 (List.length row0))
  end.

(** Insertion of index [i] before the first index whose key is not
    smaller. *)
Fixpoint insert_index (key : nat -> Q) (i : nat) (l : list nat) : list nat :=
  match l with
  | [] => [i]
  | j :: r =>
      if Qle_bool (key i) (key j) then i :: j :: r
      else j :: insert_index key i r
  end.

(** The indices of [torch.sort(v)]: ascending by value, equal values
    in their original order. *)
Definition argsort (v : list Q) : list nat :=
  fold_right (insert_index (fun i => nth i v 0%Q)) [] (seq 0 (List.length v)).

(** [torch.sort(v)]: the sorted values and their indices. *)
Definition sort (v : list Q) : list Q * list nat :=
  let idx := argsort v in (map (fun i => nth i v 0%Q) idx, idx).

(** The indices of [torch.topk(v, k)]: the [k] largest values, largest
    first; [k] larger than the vector is an error. *)
Definition topk_indices (v : list Q) (k : Z) : result (list nat) :=
  if (k <? 0) || (Z.of_nat (List.length v) <? k) then
    Raise (RuntimeError "selected index k out of range")
  else Ok (firstn (Z.to_nat k) (rev (argsort v))).

End Torch.

Module Numpy.

(** The value of [a == b] on one-dimensional arrays. *)
Inductive comparison : Type :=
| Elementwise (bs : list bool)
| Scalar (b : bool).

(** The entrywise comparison of two arrays of one length. *)
Definition equalities (a b : list Z) : list bool :=
  map (fun '(x, y) => Z.eqb x y) (combine a b).

(** [a == b]: elementwise when the lengths agree or one of them is 1
    (broadcasting).  On other lengths NumPy before 1.25 gives the
    scalar [False]; later versions raise [ValueError]. *)
Definition equal (legacy : bool) (a b : list Z) : result comparison :=
  if Nat.eqb (List.length a) (List.length b) then
    Ok (Elementwise (equalities a b))
  else match a, b with
       | [x], _ => Ok (Elementwise (map (fun y => Z.eqb x y) b))
       | _, [y] => Ok (Elementwise (map (fun x => Z.eqb x y) a))
       | _, _ =>
           if legacy then Ok (Scalar false)
           else Raise (ValueError "operands could not be broadcast together")
       end.

Definition count_true (bs : list bool) : Z :=
  Z.of_nat (List.length (filter (fun b => b) bs)).

(** [np.sum] of a boolean array or scalar. *)
Definition sum (c : comparison) : Z :=
  match c with
  | Elementwise bs => count_true bs
  | Scalar b => if b then 1 else 0
  end.

(** [np.nonzero(v)[0]]: the positions of the non-zero entries. *)
Definition nonzero (v : list Q) : list nat :=
  map fst (filter (fun '(_, x) => negb (Qeq_bool x 0)) (combine (seq 0 (List.length v)) v)).

End Numpy.

(** ** Effects *)

(** A value written on a line of [info.txt]. *)
Inductive info_value : Type :=
| IntValue (z : Z)
| FloatValue (q : Q).

(** What a run does to its surroundings, in the order it happens. *)
Inductive event : Type :=
| SetEnv (name value : string)
| Makedir (path : string)
| CreateLogger (log_filename : string)
| Log (msg : string)
| Artifact (producer path : string)
| OpenFile (path : string)
| WriteLine (path label : string) (value : info_value)
| CloseLogger.

(** A computation: the events so far and how it ended. *)
Definition M (A : Type) : Type := list event * result A.

Definition ret {A} (a : A) : M A := ([], Ok a).

Definition bind {A B} (m : M A) (f : A -> M B) : M B :=
  match m with
  | (t, Ok a) => let '(t', r) := f a in ((t ++ t')%list, r)
  | (t, Raise e) => (t, Raise e)
  end.

Definition emit (e : event) : M unit := ([e], Ok tt).
Definition raise {A} (e : exn) : M A := ([], Raise e).
Definition lift {A} (r : result A) : M A := ([], r).

Declare Scope py_scope.
Delimit Scope py_scope with py.
Notation "x <- c ;; k" := (bind c (fun x => k))
  (at level 61, c at next level, right associativity) : py_scope.
Notation "' p <- c ;; k" := (bind c (fun x => let 'p := x in k))
  (at level 61, p pattern, c at next level, right associativity) : py_scope.
Notation "c ;; k" := (bind c (fun _ => k))
  (at level 61, right associativity) : py_scope.
Local Open Scope py_scope.

Definition trace {A} (m : M A) : list event := fst m.
Definition outcome {A} (m : M A) : result A := snd m.

(** [assert b, msg]. *)
Definition py_assert (b : bool) (msg : string) : M unit :=
  if b then ret tt else raise (AssertionError msg).

(** [for x in l: body x]. *)
Fixpoint for_each {A} (body : A -> M unit) (l : list A) : M unit :=
  match l with
  | [] => ret tt
  | x :: r => body x ;; for_each body r
  end.

(** The values of a counter that starts at [cnt] and is incremented at
    the end of every iteration, paired with the items iterated over. *)
Fixpoint counted {A} (cnt : Z) (l : list A) : list (Z * A) :=
  match l with
  | [] => []
  | x :: r => (cnt, x) :: counted (cnt + 1) r
  end.

(** ** The module's name space *)

Module Namespace.

Inductive stmt : Type :=
| Import (module : string) (asname : option string)
| FromImport (module : string) (names : list string)
| Def (name : string).

(** Lines 1 to 16 of the module: its only top-level statements. *)
Definition module_statements : list stmt :=
  [ Import "os" None;
    Import "re" None;
    FromImport "argparse" ["Namespace"];
    Import "numpy" (Some "np");
    Import "torch" None;
    FromImport "torch.autograd" ["Variable"];
    Import "torchvision.transforms" (Some "transforms");
    Import "torchvision.datasets" (Some "datasets");
    FromImport "PIL" ["Image"];
    FromImport ".helpers" ["makedir"];
    FromImport ".log" ["create_logger"];
    FromImport ".preprocess" ["mean"; "std"];
    FromImport ".local_analysis" ["save_preprocessed_img"];
    Def "run_analysis" ].

(** The part of a dotted module name before its first dot. *)
Fixpoint top_package (s : string) : string :=
  match s with
  | EmptyString => EmptyString
  | String c r => if Ascii.eqb c "." then EmptyString else String c (top_package r)
  end.

(** The names a statement binds in the module. *)
Definition binds (s : stmt) : list string :=
  match s with
  | Import m None => [top_package m]
  | Import _ (Some a) => [a]
  | FromImport _ names => names
  | Def name => [name]
  end.

Definition module_globals : list string := flat_map binds module_statements.

(** The built-in functions and constants of Python 3. *)
Definition builtins : list string :=
  [ "abs"; "all"; "any"; "ascii"; "bin"; "bool"; "breakpoint"; "bytearray";
    "bytes"; "callable"; "chr"; "classmethod"; "compile"; "complex";
    "delattr"; "dict"; "dir"; "divmod"; "enumerate"; "eval"; "exec";
    "filter"; "float"; "format"; "frozenset"; "getattr"; "globals";
    "hasattr"; "hash"; "help"; "hex"; "id"; "input"; "int"; "isinstance";
    "issubclass"; "iter"; "len"; "list"; "locals"; "map"; "max";
    "memoryview"; "min"; "next"; "object"; "oct"; "open"; "ord"; "pow";
    "print"; "property"; "range"; "repr"; "reversed"; "round"; "set";
    "setattr"; "slice"; "sorted"; "staticmethod"; "str"; "sum"; "super";
    "tuple"; "type"; "vars"; "zip"; "True"; "False"; "None" ].

Definition is_bound (globals : list string) (name : string) : bool :=
  (existsb (String.eqb name) globals || existsb (String.eqb name) builtins)%bool.

(** Reading a global name: [NameError] when nothing binds it. *)
Definition resolve (globals : list string) (name : string) : M unit :=
  if is_bound globals name then ret tt else raise (NameError name).

(** The global names that lines 17 to 96 read. *)
Definition prelude_names : list string :=
  [ "os"; "re"; "makedir"; "create_logger"; "torch"; "transforms"; "mean";
    "std"; "datasets"; "np"; "str"; "len"; "set"; "Image"; "Variable";
    "range"; "save_preprocessed_img" ].

(** The global names that the two loops of [run_analysis] read and that
    lines 17 to 96 do not, in the order of their first use. *)
Definition loop_names : list string :=
  [ "tqdm"; "save_prototype"; "save_prototype_original_img_with_bbox";
    "save_prototype_self_activation"; "cv2"; "find_high_activation_crop";
    "plt"; "imsave_with_bbox" ].

End Namespace.

(** ** The model object, the command line and the outside world *)

(** [prototype_activation_function] is the string ['log'] or ['linear'],
    or a callable. *)
Inductive activation_function : Type :=
| Named (name : string)
| Callable.

(** [prototype_activation_function == 'linear']. *)
Definition is_linear (af : activation_function) : bool :=
  match af with
  | Named n => String.eqb n "linear"
  | Callable => false
  end.

(** The pixels of an image never decide what the module does next, so
    images are carried as opaque payloads. *)
Definition pil_image : Type := list Z.
Definition image_tensor : Type := list Q.

(** The attributes and methods of the loaded network that [run_analysis]
    reads.  The input batch has one image ([img_tensor.unsqueeze(0)]) and
    the module reads the outputs at [idx = 0] only, so [forward] and
    [push_forward] give the outputs for that image.
    [distance_2_similarity] acts on every entry of a tensor. *)
Record PPNet : Type := {
  img_size : Z;
  prototype_shape : Z * Z * Z * Z;
  num_prototypes : Z;
  prototype_activation_function : activation_function;
  last_layer_weight : list (list Q);
  prototype_class_identity : list (list Q);
  distance_2_similarity : Q -> Q;
  forward : image_tensor -> list Q * list Q;
  push_forward : image_tensor -> list (list (list Q))
}.

(** A row of [bb.npy]. *)
Record bb_row : Type := {
  prototype_original_image_id : Z;
  height_start : Z;
  height_end : Z;
  width_start : Z;
  width_end : Z;
  prototype_class : Z
}.

(** [args]. *)
Record Namespace_args : Type := {
  gpus : string;
  img : string;
  model : string;
  out : string;
  top_prototypes : Z;
  top_classes : Z
}.

(** What the run reads from outside: the working directory (through
    [os.path.abspath]), the files, and the version of NumPy. *)
Record World : Type := {
  abspath : string -> string;
  path_exists : string -> bool;
  torch_load : string -> result PPNet;
  image_folder_classes : string -> result (list string);
  np_load : string -> result (list bb_row);
  image_open : string -> result pil_image;
  preprocess : Z -> pil_image -> image_tensor;
  numpy_before_1_25 : bool
}.

(** ** The pure steps of [run_analysis] *)

Definition nl : string := String (ascii_of_nat 10) EmptyString.
Definition dquote : string := String (ascii_of_nat 34) EmptyString.

(** Line 25: the epoch number of a checkpoint file name. *)
Definition start_epoch_number (model_name : string) : result Z :=
  match PyStr.re_search_digits model_name with
  | None => Raise (AttributeError "'NoneType' object has no attribute 'group'")
  | Some run => Ok (PyStr.int run)
  end.

Record parsed_paths : Type := {
  img_path : string;
  img_class : string;
  img_name : string;
  model_base_architecture : string;
  experiment_run : string;
  model_name : string;
  epoch : Z
}.

(** Lines 20 to 25, on the two absolute paths. *)
Definition parse_paths (img_path model_path : string) : result parsed_paths :=
  match Py.unpack2 (PyStr.last_n 2 (PyStr.re_split img_path)) with
  | Raise e => Raise e
  | Ok (img_class, img_name) =>
      match Py.unpack4 (PyStr.last_n 4 (PyStr.re_split model_path)) with
      | Raise e => Raise e
      | Ok (model_base_architecture, experiment_run, _, model_name) =>
          match start_epoch_number model_name with
          | Raise e => Raise e
          | Ok n => Ok {| img_path := img_path; img_class := img_class;
                          img_name := img_name;
                          model_base_architecture := model_base_architecture;
                          experiment_run := experiment_run;
                          model_name := model_name; epoch := n |}
          end
      end
  end.

(** Line 27. *)
Definition save_analysis_path_of (args : Namespace_args) (p : parsed_paths) : string :=
  PyPath.join (out args)
    [model_base_architecture p; experiment_run p; model_name p;
     "alignment"; img_class p; img_name p].

(** Line 48. *)
Definition load_img_dir_of (args : Namespace_args) : string :=
  PyPath.join (PyPath.dirname (model args)) [".."; "img"].

(** Line 42. *)
Definition max_dist (ppnet : PPNet) : Z :=
  let '(_, d1, d2, d3) := prototype_shape ppnet in d1 * d2 * d3.

Definition all_aligned_msg : string :=
  "All prototypes connect strongly to their respective classes" ++ nl.
Definition not_aligned_msg : string :=
  "WARNING: Not all prototypes connect most strongly to their respective classes" ++ nl.

(** Lines 55 to 60: the alignment check; its value is
    [prototype_max_connection]. *)
Definition alignment_check (w : World) (ppnet : PPNet)
    (prototype_img_identity : list Z) : M (list Z) :=
  prototype_max_connection <- lift (Torch.argmax_dim0 (last_layer_weight ppnet)) ;;
  equalities <- lift (Numpy.equal (numpy_before_1_25 w) prototype_max_connection
                                  prototype_img_identity) ;;
  (if Numpy.sum equalities =? num_prototypes ppnet
   then emit (Log all_aligned_msg)
   else emit (Log not_aligned_msg)) ;;
  ret prototype_max_connection.

(** [t + n] for a float [t] and an integer [n]. *)
Definition add_int (t : Q) (n : Z) : Q := (t + inject_Z n)%Q.

(** Lines 78 to 82: distances to activations, for the vector of minimum
    distances and for the dense maps. *)
Definition activations_of_distances (ppnet : PPNet)
    (min_distances : list Q) (distances : list (list (list Q)))
  : list Q * list (list (list Q)) :=
  let prototype_activations := map (distance_2_similarity ppnet) min_distances in
  let prototype_activation_patterns :=
    map (map (map (distance_2_similarity ppnet))) distances in
  if is_linear (prototype_activation_function ppnet) then
    (map (fun a => add_int a (max_dist ppnet)) prototype_activations,
     map (map (map (fun a => add_int a (max_dist ppnet)))) prototype_activation_patterns)
  else (prototype_activations, prototype_activation_patterns).

(** [dataset.class_to_idx[name]]: the position of [name] among the sorted
    class directories. *)
Fixpoint class_to_idx (classes : list string) (name : string) : option nat :=
  match classes with
  | [] => None
  | c :: r => if String.eqb c name then Some 0%nat
              else option_map S (class_to_idx r name)
  end.

(** [sorted_indices_act[-i].item()] (lines 100 to 120). *)
Definition top_prototype_index (sorted_indices_act : list nat) (i : Z) : result nat :=
  Py.index sorted_indices_act (- i).


(** Line 152: the prototypes whose class indicator for [c] is not zero. *)
Definition class_prototype_indices (identity : list (list Q)) (c : nat)
  : result (list nat) :=
  match Torch.column c identity with
  | Raise e => Raise e
  | Ok col => Ok (Numpy.nonzero col)
  end.

(** Line 153: [v[indices]]. *)
Definition take_indices (v : list Q) (indices : list nat) : result (list Q) :=
  Py.map_result (fun p => Py.index v (Z.of_nat p)) indices.


(** ** [run_analysis] *)

(** The variables of [run_analysis] that are live after line 96. *)
Record analysis_state : Type := {
  st_paths : parsed_paths;
  st_save_analysis_path : string;
  st_ppnet : PPNet;
  st_classes : list string;
  st_load_img_dir : string;
  st_prototype_info : list bb_row;
  st_prototype_img_identity : list Z;
  st_prototype_max_connection : list Z;
  st_logits : list Q;
  st_prototype_activations : list Q;
  st_prototype_activation_patterns : list (list (list Q));
  st_predicted_cls : nat;
  st_correct_cls : nat;
  st_array_act : list Q;
  st_sorted_indices_act : list nat
}.

Definition log (msg : string) : M unit := emit (Log msg).

(** Lines 17 to 96.  [makedir], [create_logger] and
    [save_preprocessed_img] are imported from sibling modules; each is
    recorded as the effect it has on the output tree. *)
Definition analysis_prelude (args : Namespace_args) (w : World) : M analysis_state :=
  emit (SetEnv "CUDA_VISIBLE_DEVICES" (gpus args)) ;;
  p <- lift (parse_paths (abspath w (img args)) (abspath w (model args))) ;;
  let save_analysis_path := save_analysis_path_of args p in
  emit (Makedir save_analysis_path) ;;
  emit (CreateLogger (PyPath.join save_analysis_path ["local_analysis.log"])) ;;
  log (nl ++ "Load model from: " ++ model args) ;;
  log ("Model epoch: " ++ PyStr.str (epoch p)) ;;
  log ("Model base architecture: " ++ model_base_architecture p) ;;
  log ("Experiment run: " ++ experiment_run p ++ nl) ;;
  ppnet <- lift (torch_load w (model args)) ;;
  classes <- lift (image_folder_classes w
                     (PyPath.join (PyPath.dirname (img_path p)) [".."])) ;;
  let load_img_dir := load_img_dir_of args in
  py_assert (path_exists w load_img_dir)
            ("Folder " ++ dquote ++ load_img_dir ++ dquote ++ " does not exist") ;;
  prototype_info <- lift (np_load w
                            (PyPath.join load_img_dir
                               ["epoch-" ++ PyStr.str (epoch p); "bb.npy"])) ;;
  let prototype_img_identity := map prototype_class prototype_info in
  log ("Prototypes are chosen from "
         ++ PyStr.str (Py.len_set prototype_img_identity) ++ " classes") ;;
  prototype_max_connection <- alignment_check w ppnet prototype_img_identity ;;
  img_pil <- lift (image_open w (img args)) ;;
  let img_tensor := preprocess w (img_size ppnet) img_pil in
  correct_cls <- lift (match class_to_idx classes (img_class p) with
                       | Some k => Ok k
                       | None => Raise (KeyError (img_class p))
                       end) ;;
  let '(logits, min_distances) := forward ppnet img_tensor in
  let distances := push_forward ppnet img_tensor in
  let '(prototype_activations, prototype_activation_patterns) :=
    activations_of_distances ppnet min_distances distances in
  predicted_cls <- lift (Torch.argmax logits) ;;
  log ("Predicted class: " ++ PyStr.str (Z.of_nat predicted_cls)) ;;
  log ("Correct class: " ++ PyStr.str (Z.of_nat correct_cls) ++ nl) ;;
  emit (Artifact "save_preprocessed_img"
                 (PyPath.join save_analysis_path ["original_img.png"])) ;;
  let '(array_act, sorted_indices_act) := Torch.sort prototype_activations in
  ret {| st_paths := p;
         st_save_analysis_path := save_analysis_path;
         st_ppnet := ppnet;
         st_classes := classes;
         st_load_img_dir := load_img_dir;
         st_prototype_info := prototype_info;
         st_prototype_img_identity := prototype_img_identity;
         st_prototype_max_connection := prototype_max_connection;
         st_logits := logits;
         st_prototype_activations := prototype_activations;
         st_prototype_activation_patterns := prototype_activation_patterns;
         st_predicted_cls := predicted_cls;
         st_correct_cls := correct_cls;
         st_array_act := array_act;
         st_sorted_indices_act := sorted_indices_act |}.

(** Lines 121 to 142 and 184 to 205: the rendering of one prototype on
    the test image.  What the images hold is not modelled; the names the
    statements read and the files they write are. *)
Definition render_on_target (G : list string) (dir activation_png : string) : M unit :=
  Namespace.resolve G "cv2" ;;
  Namespace.resolve G "find_high_activation_crop" ;;
  Namespace.resolve G "plt" ;;
  emit (Artifact "plt.imsave" (PyPath.join dir ["target_patch.png"])) ;;
  Namespace.resolve G "imsave_with_bbox" ;;
  emit (Artifact "imsave_with_bbox" (PyPath.join dir ["target_bbox.png"])) ;;
  emit (Artifact "plt.imsave" (PyPath.join dir [activation_png])).

(** Lines 98 to 142: one iteration of the first loop. *)
Definition most_activated_body (G : list string) (st : analysis_state) (i : Z) : M unit :=
  let out_dir :=
    PyPath.join (st_save_analysis_path st)
      ["most_activated_prototypes"; "top-" ++ PyStr.str i] in
  let conn := st_prototype_max_connection st in
  let ident := st_prototype_img_identity st in
  let info := PyPath.join out_dir ["info.txt"] in
  emit (Makedir out_dir) ;;
  Namespace.resolve G "save_prototype" ;;
  index <- lift (top_prototype_index (st_sorted_indices_act st) i) ;;
  emit (Artifact "save_prototype" (PyPath.join out_dir ["prototype_patch.png"])) ;;
  Namespace.resolve G "save_prototype_original_img_with_bbox" ;;
  _ <- lift (Py.index (st_prototype_info st) (Z.of_nat index)) ;;
  emit (Artifact "save_prototype_original_img_with_bbox"
                 (PyPath.join out_dir ["prototype_bbox.png"])) ;;
  Namespace.resolve G "save_prototype_self_activation" ;;
  emit (Artifact "save_prototype_self_activation"
                 (PyPath.join out_dir ["prototype_activation.png"])) ;;
  emit (OpenFile info) ;;
  emit (WriteLine info "prototype index" (IntValue (Z.of_nat index))) ;;
  cls <- lift (Py.index ident (Z.of_nat index)) ;;
  emit (WriteLine info "prototype class" (IntValue cls)) ;;
  c <- lift (Py.index conn (Z.of_nat index)) ;;
  (if negb (c =? cls)
   then emit (WriteLine info "prototype connection" (IntValue c))
   else ret tt) ;;
  a <- lift (Py.index (st_array_act st) (- i)) ;;
  emit (WriteLine info "activation value (similarity score)" (FloatValue a)) ;;
  row <- lift (Py.index (last_layer_weight (st_ppnet st))
                        (Z.of_nat (st_predicted_cls st))) ;;
  wt <- lift (Py.index row (Z.of_nat index)) ;;
  emit (WriteLine info "last layer connection with predicted class" (FloatValue wt)) ;;
  _ <- lift (Py.index (st_prototype_activation_patterns st) (Z.of_nat index)) ;;
  render_on_target G out_dir "target_activations.png".

(** Lines 96 to 142.  The iterable of the [for] statement, a call of
    [tqdm], is evaluated once, before the first iteration. *)
Definition most_activated_loop (G : list string) (args : Namespace_args)
    (st : analysis_state) : M unit :=
  Namespace.resolve G "tqdm" ;;
  for_each (most_activated_body G st) (Py.range 1 (top_prototypes args + 1)).

(** Lines 158 to 206: one iteration of the inner loop for class [c], the
    [i]-th of the top classes. *)
Definition class_prototype_body (G : list string) (st : analysis_state)
    (class_dir : string) (c : nat) (logit : Q) (indices : list nat)
    (it : Z * nat) : M unit :=
  let '(prototype_cnt, j) := it in
  let prototype_dir :=
    PyPath.join class_dir ["top-" ++ PyStr.str prototype_cnt ++ "_prototype"] in
  let conn := st_prototype_max_connection st in
  let ident := st_prototype_img_identity st in
  let info := PyPath.join prototype_dir ["info.txt"] in
  emit (Makedir prototype_dir) ;;
  prototype_index <- lift (Py.index indices (Z.of_nat j)) ;;
  Namespace.resolve G "save_prototype" ;;
  emit (Artifact "save_prototype" (PyPath.join prototype_dir ["prototype_patch.png"])) ;;
  Namespace.resolve G "save_prototype_original_img_with_bbox" ;;
  _ <- lift (Py.index (st_prototype_info st) (Z.of_nat prototype_index)) ;;
  emit (Artifact "save_prototype_original_img_with_bbox"
                 (PyPath.join prototype_dir ["prototype_bbox.png"])) ;;
  Namespace.resolve G "save_prototype_self_activation" ;;
  emit (Artifact "save_prototype_self_activation"
                 (PyPath.join prototype_dir ["prototype_activation.png"])) ;;
  emit (OpenFile info) ;;
  emit (WriteLine info "prototype index" (IntValue (Z.of_nat prototype_index))) ;;
  cls <- lift (Py.index ident (Z.of_nat prototype_index)) ;;
  emit (WriteLine info "prototype class" (IntValue cls)) ;;
  emit (WriteLine info "prototype class logits" (FloatValue logit)) ;;
  cn <- lift (Py.index conn (Z.of_nat prototype_index)) ;;
  (if negb (cn =? cls)
   then emit (WriteLine info "prototype connection" (IntValue cn))
   else ret tt) ;;
  a <- lift (Py.index (st_prototype_activations st) (Z.of_nat prototype_index)) ;;
  emit (WriteLine info "activation value (similarity score)" (FloatValue a)) ;;
  row <- lift (Py.index (last_layer_weight (st_ppnet st)) (Z.of_nat c)) ;;
  wt <- lift (Py.index row (Z.of_nat prototype_index)) ;;
  emit (WriteLine info "last layer connection" (FloatValue wt)) ;;
  _ <- lift (Py.index (st_prototype_activation_patterns st) (Z.of_nat prototype_index)) ;;
  render_on_target G prototype_dir "target_activation.png".

(** Lines 150 to 206: one iteration of the loop over the top classes. *)
Definition class_body (G : list string) (st : analysis_state) (it : Z * nat) : M unit :=
  let '(i, c) := it in
  let class_dir :=
    PyPath.join (st_save_analysis_path st)
      ["class_prototypes"; "top-" ++ PyStr.str (i + 1) ++ "_class"] in
  emit (Makedir class_dir) ;;
  indices <- lift (class_prototype_indices
                     (prototype_class_identity (st_ppnet st)) c) ;;
  class_prototype_activations <-
    lift (take_indices (st_prototype_activations st) indices) ;;
  let '(_, sorted_indices_cls_act) := Torch.sort class_prototype_activations in
  let reversed_indices := rev sorted_indices_cls_act in
  Namespace.resolve G "tqdm" ;;
  for_each (class_prototype_body G st class_dir c (nth c (st_logits st) 0%Q) indices)
           (counted 1 reversed_indices).

(** Lines 144 to 206. *)
Definition class_prototypes_part (G : list string) (args : Namespace_args)
    (st : analysis_state) : M unit :=
  let k := top_classes args in
  py_assert (k <? Z.of_nat (List.length (st_classes st)))
            "k must be less than the number of available classes" ;;
  log ("Prototypes from top-" ++ PyStr.str k ++ " classes:") ;;
  topk_classes <- lift (Torch.topk_indices (st_logits st) k) ;;
  for_each (class_body G st) (counted 0 topk_classes).

(** Lines 208 to 213. *)
Definition verdict (st : analysis_state) : M unit :=
  (if Nat.eqb (st_predicted_cls st) (st_correct_cls st)
   then log "Prediction is correct."
   else log "Prediction is wrong.") ;;
  emit CloseLogger.

(** [run_analysis] in a module whose global names are [G]. *)
Definition run_analysis_in (G : list string) (args : Namespace_args) (w : World) : M unit :=
  st <- analysis_prelude args w ;;
  most_activated_loop G args st ;;
  class_prototypes_part G args st ;;
  verdict st.

(** [run_analysis] as the module defines it. *)
Definition run_analysis (args : Namespace_args) (w : World) : M unit :=
  run_analysis_in Namespace.module_globals args w.

(** ** A small concrete run *)

Module Sample.

Definition args : Namespace_args :=
  {| gpus := "0";
     img := "/data/test/Male/1.jpg";
     model := "/saved_models/vgg19/003/checkpoints/10_18push0.7822.pth";
     out := "/out";
     top_prototypes := 1;
     top_classes := 1 |}.

(** Two classes, two prototypes, one for each class; linear mode. *)
Definition net : PPNet :=
  {| img_size := 224;
     prototype_shape := (2, 4, 1, 1);
     num_prototypes := 2;
     prototype_activation_function := Named "linear";
     last_layer_weight := [[1; 0]; [0; 1]]%Q;
     prototype_class_identity := [[1; 0]; [0; 1]]%Q;
     distance_2_similarity := Qopp;
     forward := fun _ => ([2; 1], [3; 1])%Q;
     push_forward := fun _ => [[[3; 4]]; [[1; 2]]]%Q |}.

Definition row (id cls : Z) : bb_row :=
  {| prototype_original_image_id := id;
     height_start := 0; height_end := 8;
     width_start := 0; width_end := 8;
     prototype_class := cls |}.

(** A world in which every file loads; the directory of prototype
    images exists or not, [bb.npy] has the given rows, and NumPy is
    older than 1.25 or not. *)
Definition world_with (img_dir : bool) (rows : list bb_row) (legacy : bool) : World :=
  {| abspath := fun p => p;
     path_exists := fun _ => img_dir;
     torch_load := fun _ => Ok net;
     image_folder_classes := fun _ => Ok ["Female"; "Male"];
     np_load := fun _ => Ok rows;
     image_open := fun _ => Ok [];
     preprocess := fun _ _ => [];
     numpy_before_1_25 := legacy |}.

Definition world : World := world_with true [row 10 0; row 11 1] false.

(** One row, or three, in [bb.npy] for a network of two prototypes. *)
Definition world_one_row (legacy : bool) : World :=
  world_with true [row 10 0] legacy.
Definition world_three_rows (legacy : bool) : World :=
  world_with true [row 10 0; row 11 1; row 12 1] legacy.

(** No directory of prototype images. *)
Definition world_no_img_dir : World :=
  world_with false [row 10 0; row 11 1] false.

(** The same command line asking for as many top classes as the data
    set has. *)
Definition args_all_classes : Namespace_args :=
  {| gpus := "0";
     img := "/data/test/Male/1.jpg";
     model := "/saved_models/vgg19/003/checkpoints/10_18push0.7822.pth";
     out := "/out";
     top_prototypes := 1;
     top_classes := 2 |}.

(** A module name space in which the names of the loops are bound. *)
Definition repaired_globals : list string :=
  (Namespace.module_globals ++ Namespace.loop_names)%list.

End Sample.

(** ** Notions the properties are stated with *)

(** The path an event touches. *)
Definition event_path (e : event) : option string :=
  match e with
  | Makedir p | CreateLogger p | Artifact _ p | OpenFile p | WriteLine p _ _ => Some p
  | SetEnv _ _ | Log _ | CloseLogger => None
  end.

(** An event is a per-prototype artifact of the analysis rooted at
    [save_analysis_path] when its path lies under the directory of the
    most activated prototypes or under the one of the class prototypes. *)
Definition per_prototype_artifact (save_analysis_path : string) (e : event) : bool :=
  match event_path e with
  | None => false
  | Some p =>
      (String.prefix (PyPath.join save_analysis_path ["most_activated_prototypes"]) p
       || String.prefix (PyPath.join save_analysis_path ["class_prototypes"]) p)%bool
  end.

(** The events of lines 17 to 34: everything a run has done when it
    reaches the assertion of line 49. *)
Definition header_trace (args : Namespace_args) (p : parsed_paths) : list event :=
  [ SetEnv "CUDA_VISIBLE_DEVICES" (gpus args);
    Makedir (save_analysis_path_of args p);
    CreateLogger (PyPath.join (save_analysis_path_of args p) ["local_analysis.log"]);
    Log (nl ++ "Load model from: " ++ model args);
    Log ("Model epoch: " ++ PyStr.str (epoch p));
    Log ("Model base architecture: " ++ model_base_architecture p);
    Log ("Experiment run: " ++ experiment_run p ++ nl) ].

(** The separator that [join] puts after [root]. *)
Definition separator_after (root : string) : string :=
  if (String.eqb root "" || PyPath.ends_with_slash root)%bool then "" else "/".

(** The activation of prototype [i]. *)
Definition activation (v : list Q) (i : nat) : Q := nth i v 0%Q.

(** [i] comes before [j] in a stable ascending sort of [v]. *)
Definition sorted_before (v : list Q) (i j : nat) : Prop :=
  (activation v i < activation v j)%Q \/
  ((activation v i == activation v j)%Q /\ (i < j)%nat).


(** [k] is the index of the first maximal entry of [l]. *)
Definition first_maximum (l : list Q) (k : nat) : Prop :=
  (k < List.length l)%nat /\
  (forall j, (j < List.length l)%nat -> (nth j l 0 <= nth k l 0)%Q) /\
  (forall j, (j < k)%nat -> (nth j l 0 < nth k l 0)%Q).

(** ** Distance and activation over the real numbers *)

Module Similarity.

(** The two modes the spec names. *)
Inductive mode : Type := LogMode | LinearMode.


(** Modelled from the spec: [distance_2_similarity] is a method of the
    network class, which is not among the sources.  The spec calls its
    two forms inverted-log and linear; they are taken as
    [log((d + 1) / (d + epsilon))] and [-d], for a small positive
    [epsilon], over the real numbers. *)
Definition distance_2_similarity (m : mode) (epsilon d : R) : R :=
  match m with
  | LogMode => ln ((d + 1) / (d + epsilon))
  | LinearMode => - d
  end%R.


End Similarity.

(** ** Notions for the properties of the whole run *)

(** The effects that lines 17 to 96 can have: the environment variable,
    directories, the logger and its lines, and the preprocessed image. *)
Definition prelude_effect (e : event) : bool :=
  match e with
  | SetEnv _ _ | Makedir _ | CreateLogger _ | Log _ => true
  | Artifact producer _ => String.eqb producer "save_preprocessed_img"
  | OpenFile _ | WriteLine _ _ _ | CloseLogger => false
  end.

(** The two log lines of lines 208 to 211. *)
Definition is_verdict (e : event) : bool :=
  match e with
  | Log msg => (String.eqb msg "Prediction is correct."
                || String.eqb msg "Prediction is wrong.")%bool
  | _ => false
  end.

(** [s] has neither a slash nor a backslash. *)
Fixpoint no_separator (s : string) : bool :=
  match s with
  | EmptyString => true
  | String c r => (negb (PyStr.is_sep c) && no_separator r)%bool
  end.

(** [s] has no slash. *)
Fixpoint no_slash (s : string) : bool :=
  match s with
  | EmptyString => true
  | String c r => (negb (Ascii.eqb c "/") && no_slash r)%bool
  end.


(** * Properties *)

(** ** The epoch number of a checkpoint file name *)

Section Epoch.
Import PyStr.

Lemma int_acc_decimal_value (s : string) :
  forall acc, int_acc acc s = acc * 10 ^ Z.of_nat (String.length s) + decimal_value s.
Proof.
  induction s as [|c r IH]; intro acc.
  - cbn. lia.
  - cbn [int_acc decimal_value String.length].
    rewrite IH, Nat2Z.inj_succ, Z.pow_succ_r by lia. ring.
Qed.

Lemma int_decimal_value (s : string) : int s = decimal_value s.
Proof. unfold int. rewrite int_acc_decimal_value. lia. Qed.

Lemma re_search_digits_skip (pre s : string) :
  no_digit pre = true -> re_search_digits (pre ++ s) = re_search_digits s.
Proof.
  induction pre as [|c r IH]; simpl; intro H; [reflexivity|].
  apply andb_prop in H. destruct H as [Hc Hr].
  destruct (is_digit c); [discriminate|]. now apply IH.
Qed.

Lemma take_digits_run (ds post : string) :
  all_digits ds = true -> starts_without_digit post = true ->
  take_digits (ds ++ post) = ds.
Proof.
  induction ds as [|c r IH]; simpl; intros Hd Hp.
  - destruct post as [|c p]; simpl in *; [reflexivity|].
    destruct (is_digit c); [discriminate|reflexivity].
  - apply andb_prop in Hd. destruct Hd as [Hc Hr]. rewrite Hc.
    now rewrite IH.
Qed.

End Epoch.

(** C6.  A checkpoint file name that reads [pre ++ ds ++ post], where
    [pre] has no digit, [ds] is a non-empty run of digits and [post] does
    not go on with a digit, has [ds] as its first digit run, and the epoch
    number is [ds] read in base 10.  A file name with exactly one digit
    run is the case where [post] has no digit at all; in
    [10_18push0.7822.pth] the first run is [10]. *)
Theorem start_epoch_number_first_digit_run (pre ds post : string) :
  PyStr.no_digit pre = true ->
  PyStr.all_digits ds = true ->
  ds <> EmptyString ->
  PyStr.starts_without_digit post = true ->
  start_epoch_number (pre ++ ds ++ post) = Ok (PyStr.decimal_value ds).
Proof.
  intros Hpre Hds Hne Hpost. unfold start_epoch_number.
  rewrite re_search_digits_skip by assumption.
  destruct ds as [|c r]; [congruence|].
  simpl in Hds. apply andb_prop in Hds. destruct Hds as [Hc Hr].
  simpl. rewrite Hc, take_digits_run by assumption.
  now rewrite int_decimal_value.
Qed.

Lemma start_epoch_number_example :
  PyStr.no_digit "" = true /\
  PyStr.all_digits "10" = true /\
  PyStr.starts_without_digit "_18push0.7822.pth" = true /\
  start_epoch_number "10_18push0.7822.pth" = Ok 10.
Proof.
  split; [reflexivity|]. split; [reflexivity|]. split; [reflexivity|].
  apply (start_epoch_number_first_digit_run "" "10" "_18push0.7822.pth");
    [reflexivity | reflexivity | discriminate | reflexivity].
Defined.

(** ** Path parsing *)

Section Parsing.
Import PyStr.







End Parsing.



(** ** The steps before the first loop *)

Ltac absurd_run :=
  cbn [bind lift raise emit ret py_assert] in *; intros; congruence.

Lemma alignment_check_inv (w : World) (ppnet : PPNet) (ident : list Z)
    (t : list event) (conn : list Z) :
  alignment_check w ppnet ident = (t, Ok conn) ->
  Torch.argmax_dim0 (last_layer_weight ppnet) = Ok conn /\
  (t = [Log all_aligned_msg] \/ t = [Log not_aligned_msg]).
Proof.
  unfold alignment_check.
  destruct (Torch.argmax_dim0 _) as [c|e]; [|absurd_run].
  cbn [bind lift].
  destruct (Numpy.equal (numpy_before_1_25 w) c ident) as [eqs|e]; [|absurd_run].
  cbn [bind lift]. destruct (Numpy.sum eqs =? num_prototypes ppnet); cbn;
    intros [= <- <-]; auto.
Qed.

(** What a completed prelude has read and computed. *)
Lemma analysis_prelude_inv (args : Namespace_args) (w : World)
    (tr : list event) (st : analysis_state) :
  analysis_prelude args w = (tr, Ok st) ->
  exists p ppnet classes info pil,
    parse_paths (abspath w (img args)) (abspath w (model args)) = Ok p /\
    torch_load w (model args) = Ok ppnet /\
    image_folder_classes w (PyPath.join (PyPath.dirname (img_path p)) [".."]) = Ok classes /\
    path_exists w (load_img_dir_of args) = true /\
    np_load w (PyPath.join (load_img_dir_of args)
                 ["epoch-" ++ PyStr.str (epoch p); "bb.npy"]) = Ok info /\
    image_open w (img args) = Ok pil /\
    st_save_analysis_path st = save_analysis_path_of args p /\
    st_ppnet st = ppnet /\
    st_classes st = classes /\
    st_prototype_info st = info /\
    (let x := preprocess w (img_size ppnet) pil in
     (st_prototype_activations st, st_prototype_activation_patterns st)
     = activations_of_distances ppnet (snd (forward ppnet x)) (push_forward ppnet x) /\
     st_logits st = fst (forward ppnet x)) /\
    (st_array_act st, st_sorted_indices_act st) = Torch.sort (st_prototype_activations st) /\
    exists t_check t_rest,
      tr = (header_trace args p ++
            Log ("Prototypes are chosen from "
                   ++ PyStr.str (Py.len_set (map prototype_class info)) ++ " classes")
            :: t_check ++ t_rest)%list /\
      (t_check = [Log all_aligned_msg] \/ t_check = [Log not_aligned_msg]) /\
      t_rest = [Log ("Predicted class: " ++ PyStr.str (Z.of_nat (st_predicted_cls st)));
                Log ("Correct class: " ++ PyStr.str (Z.of_nat (st_correct_cls st)) ++ nl);
                Artifact "save_preprocessed_img"
                  (PyPath.join (save_analysis_path_of args p) ["original_img.png"])].
Proof.
  unfold analysis_prelude. intro H.
  destruct (parse_paths _ _) as [p|e] eqn:Ep; [|absurd_run].
  cbn [bind emit lift log] in H.
  destruct (torch_load w (model args)) as [ppnet|e] eqn:Eload; [|absurd_run].
  destruct (image_folder_classes w _) as [classes|e] eqn:Efolder; [|absurd_run].
  unfold py_assert in H.
  destruct (path_exists w (load_img_dir_of args)) eqn:Eexists; [|absurd_run].
  cbn [bind ret] in H.
  destruct (np_load w _) as [info|e] eqn:Enp; [|absurd_run].
  destruct (alignment_check w ppnet (map prototype_class info))
    as [t_check [conn|e]] eqn:Echeck; [|absurd_run].
  apply alignment_check_inv in Echeck. destruct Echeck as [_ Hcheck].
  destruct (image_open w (img args)) as [pil|e] eqn:Eopen; [|absurd_run].
  destruct (class_to_idx classes (img_class p)) as [correct|]; [|absurd_run].
  cbn [bind ret] in H.
  destruct (forward ppnet _) as [logits min_distances] eqn:Efwd.
  destruct (activations_of_distances ppnet min_distances _) as [acts pats] eqn:Eact.
  destruct (Torch.argmax logits) as [predicted|e]; [|absurd_run].
  cbn [bind ret app] in H.
  destruct (Torch.sort acts) as [array_act sorted] eqn:Esort.
  cbn [bind ret app] in H. injection H as <- <-.
  exists p, ppnet, classes, info, pil.
  cbn [st_save_analysis_path st_ppnet st_classes st_prototype_info
       st_prototype_activations st_prototype_activation_patterns st_logits
       st_array_act st_sorted_indices_act st_predicted_cls st_correct_cls].
  rewrite Efwd. cbn [fst snd]. rewrite Eact, Esort.
  repeat match goal with |- _ /\ _ => split end; try reflexivity; try assumption.
  exists t_check. eexists. split; [|split; [exact Hcheck|reflexivity]].
  reflexivity.
Qed.

(** ** Paths under the analysis directory *)

Lemma prefix_append_same (s x y : string) :
  String.prefix (s ++ x) (s ++ y) = String.prefix x y.
Proof.
  induction s as [|c s IH]; [reflexivity|]. simpl.
  destruct (ascii_dec c c); [exact IH|congruence].
Qed.

Lemma prefix_append_longer (s : string) (c : ascii) (x : string) :
  String.prefix (s ++ String c x) s = false.
Proof.
  induction s as [|a s IH]; [reflexivity|]. simpl.
  destruct (ascii_dec a a); [exact IH|congruence].
Qed.

Lemma join_relative (root : string) (c : ascii) (x : string) :
  Ascii.eqb c "/" = false ->
  PyPath.join root [String c x] = root ++ separator_after root ++ String c x.
Proof.
  intro Hc. unfold PyPath.join, PyPath.join2, separator_after. simpl.
  rewrite Hc. now destruct (String.eqb root "" || PyPath.ends_with_slash root)%bool.
Qed.

Lemma prefix_join_siblings (root : string) (a b : ascii) (x y : string) :
  Ascii.eqb a "/" = false -> Ascii.eqb b "/" = false ->
  String.prefix (PyPath.join root [String a x]) (PyPath.join root [String b y])
  = String.prefix (String a x) (String b y).
Proof.
  intros Ha Hb. rewrite !join_relative by assumption.
  rewrite prefix_append_same. unfold separator_after.
  destruct (String.eqb root "" || PyPath.ends_with_slash root)%bool; [reflexivity|].
  apply (prefix_append_same "/").
Qed.

Lemma prefix_join_parent (root : string) (a : ascii) (x : string) :
  Ascii.eqb a "/" = false ->
  String.prefix (PyPath.join root [String a x]) root = false.
Proof.
  intro Ha. rewrite join_relative by assumption. unfold separator_after.
  destruct (String.eqb root "" || PyPath.ends_with_slash root)%bool;
    apply prefix_append_longer.
Qed.

Lemma header_trace_no_artifact (args : Namespace_args) (p : parsed_paths) :
  Forall (fun e => per_prototype_artifact (save_analysis_path_of args p) e = false)
         (header_trace args p).
Proof.
  unfold header_trace, per_prototype_artifact.
  repeat constructor; cbn [event_path];
    rewrite ?prefix_join_parent, ?prefix_join_siblings by reflexivity; reflexivity.
Qed.

Lemma prelude_trace_no_artifact (args : Namespace_args) (w : World)
    (tr : list event) (st : analysis_state) :
  analysis_prelude args w = (tr, Ok st) ->
  Forall (fun e => per_prototype_artifact (st_save_analysis_path st) e = false) tr.
Proof.
  intro H. apply analysis_prelude_inv in H.
  destruct H as (p & ppnet & classes & info & pil & _ & _ & _ & _ & _ & _ & -> &
                 _ & _ & _ & _ & _ & t_check & t_rest & -> & Hcheck & ->).
  apply Forall_app. split; [apply header_trace_no_artifact|].
  constructor; [reflexivity|].
  apply Forall_app. split.
  - destruct Hcheck as [-> | ->]; repeat constructor.
  - unfold per_prototype_artifact.
    repeat constructor; cbn [event_path];
      rewrite ?prefix_join_parent, ?prefix_join_siblings by reflexivity; reflexivity.
Qed.

(** ** The first loop never starts *)

Lemma prelude_names_bound :
  forallb (Namespace.is_bound Namespace.module_globals) Namespace.prelude_names = true.
Proof. reflexivity. Qed.

Lemma loop_names_unbound :
  forallb (fun n => negb (Namespace.is_bound Namespace.module_globals n))
          Namespace.loop_names = true.
Proof. reflexivity. Qed.

Lemma most_activated_loop_raises (args : Namespace_args) (st : analysis_state) :
  most_activated_loop Namespace.module_globals args st = ([], Raise (NameError "tqdm")).
Proof. reflexivity. Qed.

Lemma run_analysis_after_prelude (args : Namespace_args) (w : World)
    (tr : list event) (st : analysis_state) :
  analysis_prelude args w = (tr, Ok st) ->
  run_analysis args w = (tr, Raise (NameError "tqdm")).
Proof.
  intro H. unfold run_analysis, run_analysis_in. rewrite H.
  cbn [bind]. rewrite most_activated_loop_raises. cbn [bind].
  now rewrite app_nil_r.
Qed.

(** C9.  The names that the two loops read ([tqdm], [save_prototype],
    [save_prototype_original_img_with_bbox],
    [save_prototype_self_activation], [cv2], [find_high_activation_crop],
    [plt], [imsave_with_bbox]) are bound neither by the module nor by the
    built-ins.  So a run whose steps before the first loop complete ends in
    [NameError] for [tqdm], raised when the loop statement evaluates its
    iterable; nothing is done after those steps, and none of what they did
    is a per-prototype artifact.  This holds for every count of top
    prototypes, in particular for every count of at least 1. *)
Theorem run_analysis_raises_name_error (args : Namespace_args) (w : World)
    (tr : list event) (st : analysis_state) :
  analysis_prelude args w = (tr, Ok st) ->
  forallb (fun n => negb (Namespace.is_bound Namespace.module_globals n))
          Namespace.loop_names = true /\
  run_analysis args w = (tr, Raise (NameError "tqdm")) /\
  Forall (fun e => per_prototype_artifact (st_save_analysis_path st) e = false) tr.
Proof.
  intro H. split; [exact loop_names_unbound|]. split.
  - exact (run_analysis_after_prelude _ _ _ _ H).
  - now apply prelude_trace_no_artifact with (args := args) (w := w).
Qed.

Lemma run_analysis_raises_name_error_sample :
  exists tr st,
    analysis_prelude Sample.args Sample.world = (tr, Ok st) /\
    (1 <= top_prototypes Sample.args) /\
    run_analysis Sample.args Sample.world = (tr, Raise (NameError "tqdm")).
Proof.
  destruct (analysis_prelude Sample.args Sample.world) as [tr [st|e]] eqn:E.
  - exists tr, st. split; [reflexivity|]. split; [cbn; lia|].
    exact (proj1 (proj2 (run_analysis_raises_name_error Sample.args Sample.world tr st E))).
  - vm_compute in E. discriminate.
Defined.

(** In a module that binds the names of the loops, the same run goes on
    and writes per-prototype artifacts: the predicate is not empty. *)
Example repaired_run_writes_artifacts :
  existsb (per_prototype_artifact
             "/out/vgg19/003/10_18push0.7822.pth/alignment/Male/1.jpg")
          (trace (run_analysis_in Sample.repaired_globals Sample.args Sample.world))
  = true /\
  outcome (run_analysis_in Sample.repaired_globals Sample.args Sample.world) = Ok tt.
Proof. split; vm_compute; reflexivity. Qed.

(** ** Which exceptions the steps can raise *)

Lemma map_result_raise {A B} (P : exn -> Prop) (f : A -> result B) (l : list A) (e : exn) :
  (forall x e', In x l -> f x = Raise e' -> P e') ->
  Py.map_result f l = Raise e -> P e.
Proof.
  induction l as [|x l IH]; simpl; intros Hf H; [discriminate|].
  destruct (f x) as [b|e'] eqn:Ex.
  - destruct (Py.map_result f l) as [bs|e'']; [discriminate|].
    injection H as <-. apply IH; [|reflexivity]. intros; eapply Hf; eauto.
  - injection H as <-. eapply Hf; eauto.
Qed.

Lemma index_raise {A} (l : list A) (k : Z) (e : exn) :
  Py.index l k = Raise e -> e = IndexError.
Proof.
  unfold Py.index.
  destruct (_ && _)%bool; [destruct (nth_error _ _)|]; congruence.
Qed.

Lemma column_raise (p : nat) (m : list (list Q)) (e : exn) :
  Torch.column p m = Raise e -> e = IndexError.
Proof.
  apply (map_result_raise (fun e => e = IndexError)). intros row e' _. apply index_raise.
Qed.

Lemma argmax_raise (l : list Q) (e : exn) :
  Torch.argmax l = Raise e -> e = IndexError.
Proof. destruct l; simpl; congruence. Qed.

Lemma argmax_dim0_raise (m : list (list Q)) (e : exn) :
  Torch.argmax_dim0 m = Raise e -> e = IndexError.
Proof.
  destruct m as [|row0 rows]; simpl Torch.argmax_dim0; [congruence|].
  apply (map_result_raise (fun e => e = IndexError)). intros p e' _.
  destruct (Torch.column p (row0 :: rows)) as [col|e1] eqn:Ec.
  - destruct (Torch.argmax col) as [k|e2] eqn:Ea; [discriminate|].
    intros [= <-]. eapply argmax_raise; eassumption.
  - intros [= <-]. eapply column_raise; eassumption.
Qed.

Lemma equal_raise (legacy : bool) (a b : list Z) (e : exn) :
  Numpy.equal legacy a b = Raise e -> exists m, e = ValueError m.
Proof.
  unfold Numpy.equal. destruct (Nat.eqb _ _); [discriminate|].
  destruct a as [|x [|x' a]]; destruct b as [|y [|y' b]]; destruct legacy;
    try discriminate; intros [= <-]; eexists; reflexivity.
Qed.

Lemma alignment_check_raise (w : World) (ppnet : PPNet) (ident : list Z)
    (t : list event) (e : exn) :
  alignment_check w ppnet ident = (t, Raise e) ->
  e = IndexError \/ exists m, e = ValueError m.
Proof.
  unfold alignment_check.
  destruct (Torch.argmax_dim0 _) as [c|e1] eqn:E1; cbn [bind lift].
  - destruct (Numpy.equal (numpy_before_1_25 w) c ident) as [eqs|e2] eqn:E2;
      cbn [bind lift].
    + destruct (Numpy.sum eqs =? num_prototypes ppnet); cbn; discriminate.
    + intros [= _ <-]. right. eapply equal_raise; eassumption.
  - intros [= _ <-]. left. eapply argmax_dim0_raise; eassumption.
Qed.

(** ** The assertions *)

Lemma run_analysis_without_img_dir (args : Namespace_args) (w : World)
    (p : parsed_paths) (ppnet : PPNet) (classes : list string) :
  parse_paths (abspath w (img args)) (abspath w (model args)) = Ok p ->
  torch_load w (model args) = Ok ppnet ->
  image_folder_classes w (PyPath.join (PyPath.dirname (img_path p)) [".."]) = Ok classes ->
  path_exists w (load_img_dir_of args) = false ->
  run_analysis args w
  = (header_trace args p,
     Raise (AssertionError
              ("Folder " ++ dquote ++ load_img_dir_of args ++ dquote ++ " does not exist"))).
Proof.
  intros Hp Hl Hf He. unfold run_analysis, run_analysis_in, analysis_prelude.
  rewrite Hp. cbn [bind emit lift log]. rewrite Hl, Hf. unfold py_assert.
  rewrite He. reflexivity.
Qed.

Lemma analysis_prelude_with_img_dir (args : Namespace_args) (w : World)
    (p : parsed_paths) (ppnet : PPNet) (classes : list string)
    (info : list bb_row) (pil : pil_image) :
  parse_paths (abspath w (img args)) (abspath w (model args)) = Ok p ->
  torch_load w (model args) = Ok ppnet ->
  image_folder_classes w (PyPath.join (PyPath.dirname (img_path p)) [".."]) = Ok classes ->
  path_exists w (load_img_dir_of args) = true ->
  np_load w (PyPath.join (load_img_dir_of args)
               ["epoch-" ++ PyStr.str (epoch p); "bb.npy"]) = Ok info ->
  image_open w (img args) = Ok pil ->
  forall msg, outcome (analysis_prelude args w) <> Raise (AssertionError msg).
Proof.
  intros Hp Hl Hf He Hn Ho msg.
  destruct (analysis_prelude args w) as [tr [st|e]] eqn:E.
  - discriminate.
  - cbn [outcome snd].
    intros [= ->]. revert E. unfold analysis_prelude.
    rewrite Hp. cbn [bind emit lift log]. rewrite Hl, Hf. unfold py_assert.
    rewrite He. cbn [bind ret]. rewrite Hn.
    destruct (alignment_check w ppnet (map prototype_class info))
      as [t_check [conn|e]] eqn:Echeck.
    + rewrite Ho.
      destruct (class_to_idx classes (img_class p)) as [correct|];
        [|cbn [bind lift]; discriminate].
      cbn [bind ret lift].
      destruct (forward ppnet _) as [logits min_distances].
      destruct (activations_of_distances ppnet min_distances _) as [acts pats].
      destruct (Torch.argmax logits) as [predicted|e] eqn:Ea.
      * cbn [bind ret lift]. destruct (Torch.sort acts). cbn. discriminate.
      * cbn [bind ret lift]. intros [= _ ->].
        apply argmax_raise in Ea. discriminate.
    + cbn [bind]. intros [= _ ->].
      apply alignment_check_raise in Echeck.
      destruct Echeck as [?|[? ?]]; discriminate.
Qed.

(** C1, as the code has it.  [run_analysis] never compares the number of
    rows of [bb.npy] with the number of prototypes of the network.  Once
    the paths are parsed and the network and the data set are loaded, a
    missing directory of prototype images stops the run at the assertion
    of line 49: the run has then made the analysis directory and written
    the head of the log, and no per-prototype artifact.  When the
    directory exists and [bb.npy] and the image are read, the steps up to
    the first loop raise no assertion failure, whatever the number of rows
    read from [bb.npy]. *)
Theorem assertion_failure_is_missing_img_dir (args : Namespace_args) (w : World)
    (p : parsed_paths) (ppnet : PPNet) (classes : list string) :
  parse_paths (abspath w (img args)) (abspath w (model args)) = Ok p ->
  torch_load w (model args) = Ok ppnet ->
  image_folder_classes w (PyPath.join (PyPath.dirname (img_path p)) [".."]) = Ok classes ->
  (path_exists w (load_img_dir_of args) = false ->
   (exists msg, run_analysis args w = (header_trace args p, Raise (AssertionError msg))) /\
   Forall (fun e => per_prototype_artifact (save_analysis_path_of args p) e = false)
          (header_trace args p)) /\
  (path_exists w (load_img_dir_of args) = true ->
   forall info pil,
     np_load w (PyPath.join (load_img_dir_of args)
                  ["epoch-" ++ PyStr.str (epoch p); "bb.npy"]) = Ok info ->
     image_open w (img args) = Ok pil ->
     forall msg, outcome (analysis_prelude args w) <> Raise (AssertionError msg)).
Proof.
  intros Hp Hl Hf. split.
  - intro He. split; [|apply header_trace_no_artifact].
    eexists. eapply run_analysis_without_img_dir; eassumption.
  - intros He info pil Hn Ho. eapply analysis_prelude_with_img_dir; eassumption.
Qed.

Lemma assertion_failure_is_missing_img_dir_sample :
  exists p msg,
    parse_paths (abspath Sample.world_no_img_dir (img Sample.args))
                (abspath Sample.world_no_img_dir (model Sample.args)) = Ok p /\
    path_exists Sample.world_no_img_dir (load_img_dir_of Sample.args) = false /\
    run_analysis Sample.args Sample.world_no_img_dir
    = (header_trace Sample.args p, Raise (AssertionError msg)).
Proof.
  destruct (parse_paths (abspath Sample.world_no_img_dir (img Sample.args))
                        (abspath Sample.world_no_img_dir (model Sample.args)))
    as [p|e] eqn:E; [|vm_compute in E; discriminate].
  destruct (proj1 (assertion_failure_is_missing_img_dir
                     Sample.args Sample.world_no_img_dir p Sample.net
                     ["Female"; "Male"] E eq_refl eq_refl) eq_refl)
    as [[msg Hrun] _].
  exists p, msg. split; [reflexivity|]. split; [reflexivity|exact Hrun].
Defined.

(** C1 as it is written fails.  With one row in [bb.npy] and a network
    of two prototypes the run raises no assertion: it logs the warning of
    the alignment check and goes on to the first loop, where it ends in
    [NameError]; in a module that binds the names of the loops it writes
    the first per-prototype artifacts and ends in [IndexError].  With
    three rows the comparison of the alignment check either gives the
    warning (NumPy before 1.25) or raises [ValueError]. *)
Lemma count_mismatch_raises_no_assertion :
  num_prototypes Sample.net = 2 /\
  (forall legacy,
     np_load (Sample.world_one_row legacy)
       "/saved_models/vgg19/003/checkpoints/../img/epoch-10/bb.npy"
     = Ok [Sample.row 10 0] /\
     outcome (run_analysis Sample.args (Sample.world_one_row legacy))
     = Raise (NameError "tqdm") /\
     In (Log not_aligned_msg)
        (trace (run_analysis Sample.args (Sample.world_one_row legacy))) /\
     outcome (run_analysis_in Sample.repaired_globals Sample.args
                              (Sample.world_one_row legacy))
     = Raise IndexError /\
     existsb (per_prototype_artifact
                "/out/vgg19/003/10_18push0.7822.pth/alignment/Male/1.jpg")
             (trace (run_analysis_in Sample.repaired_globals Sample.args
                                     (Sample.world_one_row legacy)))
     = true) /\
  outcome (run_analysis Sample.args (Sample.world_three_rows true))
  = Raise (NameError "tqdm") /\
  outcome (run_analysis Sample.args (Sample.world_three_rows false))
  = Raise (ValueError "operands could not be broadcast together").
Proof.
  split; [reflexivity|]. split; [|split; vm_compute; reflexivity].
  intros [|]; (split; [reflexivity|]); (split; [vm_compute; reflexivity|]);
    (split; [vm_compute; tauto|]); split; vm_compute; reflexivity.
Qed.

(** C10, at an input that asks for two top classes of a data set with
    two classes.  The assertion of line 146 is not what ends the run: the
    run ends before it, in the [NameError] of line 97, with no
    per-prototype artifact written.  In a module that binds the names of
    the loops the same run writes the artifacts of the first loop and then
    fails the assertion. *)
Theorem top_classes_assertion_not_reached :
  image_folder_classes Sample.world "/data/test/Male/.." = Ok ["Female"; "Male"] /\
  Z.of_nat (List.length ["Female"; "Male"]) <= top_classes Sample.args_all_classes /\
  outcome (run_analysis Sample.args_all_classes Sample.world)
  = Raise (NameError "tqdm") /\
  existsb (per_prototype_artifact
             "/out/vgg19/003/10_18push0.7822.pth/alignment/Male/1.jpg")
          (trace (run_analysis Sample.args_all_classes Sample.world))
  = false /\
  outcome (run_analysis_in Sample.repaired_globals Sample.args_all_classes Sample.world)
  = Raise (AssertionError "k must be less than the number of available classes") /\
  existsb (per_prototype_artifact
             "/out/vgg19/003/10_18push0.7822.pth/alignment/Male/1.jpg")
          (trace (run_analysis_in Sample.repaired_globals
                                  Sample.args_all_classes Sample.world))
  = true.
Proof. repeat split; vm_compute; try reflexivity. intro H; discriminate H. Qed.

(** ** The offset of the linear mode *)

Lemma is_linear_iff (af : activation_function) :
  is_linear af = true <-> af = Named "linear".
Proof.
  destruct af as [n|]; simpl; [|split; discriminate].
  rewrite String.eqb_eq. split; congruence.
Qed.

(** C4.  In the state of a run that has passed line 82, when the
    activation function of the network is the string [linear], the
    activations and the activation patterns are the similarities of the
    minimum distances and of the distance maps, each increased by the
    product of dimensions 1, 2 and 3 of the prototype shape; with any
    other activation function they are the similarities themselves.  The
    ranking of line 96 sorts these activations. *)
Theorem linear_mode_adds_max_dist (args : Namespace_args) (w : World)
    (tr : list event) (st : analysis_state) :
  analysis_prelude args w = (tr, Ok st) ->
  exists pil d0 d1 d2 d3,
    image_open w (img args) = Ok pil /\
    prototype_shape (st_ppnet st) = (d0, d1, d2, d3) /\
    let net := st_ppnet st in
    let x := preprocess w (img_size net) pil in
    let sim := distance_2_similarity net in
    let shifted := fun d => (sim d + inject_Z (d1 * d2 * d3))%Q in
    (prototype_activation_function net = Named "linear" ->
     st_prototype_activations st = map shifted (snd (forward net x)) /\
     st_prototype_activation_patterns st
     = map (map (map shifted)) (push_forward net x)) /\
    (prototype_activation_function net <> Named "linear" ->
     st_prototype_activations st = map sim (snd (forward net x)) /\
     st_prototype_activation_patterns st
     = map (map (map sim)) (push_forward net x)) /\
    st_sorted_indices_act st = Torch.argsort (st_prototype_activations st).
Proof.
  intro H. apply analysis_prelude_inv in H.
  destruct H as (p & ppnet & classes & info & pil & _ & _ & _ & _ & _ & Ho & _ &
                 -> & _ & _ & [Hact _] & Hsort & _).
  destruct (prototype_shape ppnet) as [[[d0 d1] d2] d3] eqn:Eshape.
  exists pil, d0, d1, d2, d3. split; [exact Ho|]. split; [reflexivity|].
  cbn zeta. unfold activations_of_distances, max_dist in Hact.
  rewrite Eshape in Hact. split; [|split].
  - intro Hlin. apply is_linear_iff in Hlin. rewrite Hlin in Hact.
    injection Hact as -> ->. unfold add_int.
    rewrite !map_map. split; [reflexivity|].
    apply map_ext; intro a. rewrite !map_map.
    apply map_ext; intro b. now rewrite !map_map.
  - intro Hnot. destruct (is_linear (prototype_activation_function ppnet)) eqn:El.
    + apply is_linear_iff in El. contradiction.
    + injection Hact as -> ->. split; reflexivity.
  - unfold Torch.sort in Hsort. now injection Hsort as _ ->.
Qed.

Lemma linear_mode_adds_max_dist_sample :
  exists tr st,
    analysis_prelude Sample.args Sample.world = (tr, Ok st) /\
    prototype_activation_function (st_ppnet st) = Named "linear" /\
    st_prototype_activations st
    = map (fun d => (distance_2_similarity Sample.net d + inject_Z (4 * 1 * 1))%Q)
          [3; 1]%Q.
Proof.
  destruct (analysis_prelude Sample.args Sample.world) as [tr [st|e]] eqn:E;
    [|vm_compute in E; discriminate].
  exists tr, st. split; [reflexivity|].
  destruct (linear_mode_adds_max_dist Sample.args Sample.world tr st E)
    as (pil & d0 & d1 & d2 & d3 & _ & Hshape & Hlin & _ & _).
  vm_compute in E. injection E as <- <-.
  injection Hshape as <- <- <- <-.
  split; [reflexivity|]. exact (proj1 (Hlin eq_refl)).
Defined.

(** ** Indexing and mapping without errors *)

Lemma index_nat {A} (d : A) (l : list A) (p : nat) :
  (p < List.length l)%nat -> Py.index l (Z.of_nat p) = Ok (nth p l d).
Proof.
  intro Hp. unfold Py.index.
  assert (E : (Z.of_nat p <? 0) = false) by (apply Z.ltb_ge; lia).
  rewrite E.
  assert (E1 : (0 <=? Z.of_nat p) = true) by (apply Z.leb_le; lia).
  assert (E2 : (Z.of_nat p <? Z.of_nat (List.length l)) = true)
    by (apply Z.ltb_lt; lia).
  rewrite E1, E2, Nat2Z.id. cbn [andb].
  now rewrite (nth_error_nth' l d Hp).
Qed.

Lemma map_result_total {A B} (f : A -> result B) (g : A -> B) (l : list A) :
  (forall a, In a l -> f a = Ok (g a)) -> Py.map_result f l = Ok (map g l).
Proof.
  induction l as [|a l IH]; intro H; simpl; [reflexivity|].
  rewrite (H a (or_introl eq_refl)), IH; [reflexivity|].
  intros; apply H; now right.
Qed.

(** ** The arg-max of a vector *)

Lemma argmax_from_spec (l : list Q) :
  forall (pre : list Q) (best_i : nat),
    (best_i < List.length pre)%nat ->
    (forall j, (j < List.length pre)%nat -> (nth j pre 0 <= nth best_i pre 0)%Q) ->
    (forall j, (j < best_i)%nat -> (nth j pre 0 < nth best_i pre 0)%Q) ->
    first_maximum (pre ++ l)%list
      (Torch.argmax_from best_i (nth best_i pre 0%Q) (List.length pre) l).
Proof.
  induction l as [|x l IH]; intros pre best_i Hb Hmax Hfirst.
  - simpl. rewrite app_nil_r. now repeat split.
  - cbn [Torch.argmax_from].
    replace (pre ++ x :: l)%list with ((pre ++ [x]) ++ l)%list
      by (rewrite <- app_assoc; reflexivity).
    assert (Hlen : List.length (pre ++ [x])%list = S (List.length pre))
      by (rewrite length_app; simpl; lia).
    destruct (Qle_bool x (nth best_i pre 0%Q)) eqn:Ex.
    + apply Qle_bool_iff in Ex.
      pose proof (IH (pre ++ [x])%list best_i) as IH'.
      rewrite Hlen, (app_nth1 pre [x] 0%Q Hb) in IH'. apply IH'.
      * lia.
      * intros j Hj.
        destruct (Nat.eq_dec j (List.length pre)) as [->|Hne].
        -- rewrite app_nth2, Nat.sub_diag by lia. exact Ex.
        -- rewrite app_nth1 by lia. apply Hmax. lia.
      * intros j Hj. rewrite !app_nth1 by lia. now apply Hfirst.
    + assert (Hlt : (nth best_i pre 0 < x)%Q).
      { apply Qnot_le_lt. intro Hle. apply Qle_bool_iff in Hle. congruence. }
      pose proof (IH (pre ++ [x])%list (List.length pre)) as IH'.
      rewrite Hlen, (app_nth2 pre [x] 0%Q (Nat.le_refl _)), Nat.sub_diag in IH'.
      cbn [nth] in IH'. apply IH'.
      * lia.
      * intros j Hj.
        destruct (Nat.eq_dec j (List.length pre)) as [->|Hne].
        -- rewrite app_nth2, Nat.sub_diag by lia. apply Qle_refl.
        -- rewrite app_nth1 by lia. apply Qlt_le_weak.
           eapply Qle_lt_trans; [apply Hmax; lia|exact Hlt].
      * intros j Hj. rewrite app_nth1 by lia.
        eapply Qle_lt_trans; [apply Hmax; lia|exact Hlt].
Qed.

Lemma argmax_first_maximum (l : list Q) (k : nat) :
  Torch.argmax l = Ok k -> first_maximum l k.
Proof.
  destruct l as [|x l]; simpl; [discriminate|]. intros [= <-].
  apply (argmax_from_spec l [x] 0%nat).
  - simpl; lia.
  - intros j Hj. simpl in Hj. assert (j = 0%nat) as -> by lia. apply Qle_refl.
  - intros j Hj. lia.
Qed.

Lemma column_ok (m : list (list Q)) (P p : nat) :
  Forall (fun row => List.length row = P) m -> (p < P)%nat ->
  Torch.column p m = Ok (map (fun row => nth p row 0%Q) m).
Proof.
  intros Hm Hp. apply map_result_total. intros row Hin.
  apply index_nat. rewrite Forall_forall in Hm. rewrite (Hm row Hin). exact Hp.
Qed.

Lemma argmax_dim0_ok (m : list (list Q)) (P : nat) :
  m <> [] -> Forall (fun row => List.length row = P) m ->
  exists conn,
    Torch.argmax_dim0 m = Ok conn /\
    List.length conn = P /\
    forall p, (p < P)%nat ->
      exists col k, Torch.column p m = Ok col /\ Torch.argmax col = Ok k /\
                    first_maximum col k /\ nth p conn 0 = Z.of_nat k.
Proof.
  intros Hne Hm. destruct m as [|row0 rows]; [congruence|].
  assert (Hrow0 : List.length row0 = P) by now inversion Hm.
  set (m := row0 :: rows) in *.
  set (col := fun p : nat => map (fun row => nth p row 0%Q) m).
  assert (Hk : forall p, exists k, Torch.argmax (col p) = Ok k).
  { intro p. unfold col, m. simpl. eexists; reflexivity. }
  set (g := fun p => match Torch.argmax (col p) with
                     | Ok k => Z.of_nat k
                     | Raise _ => 0
                     end).
  exists (map g (seq 0 P)).
  assert (Hall : Torch.argmax_dim0 m = Ok (map g (seq 0 P))).
  { unfold Torch.argmax_dim0, m. fold m. rewrite Hrow0.
    apply map_result_total. intros p Hin. apply in_seq in Hin.
    rewrite (column_ok m P p Hm) by lia. fold (col p). unfold g.
    destruct (Hk p) as [k ->]. reflexivity. }
  split; [exact Hall|]. split; [now rewrite length_map, length_seq|].
  intros p Hp. destruct (Hk p) as [k Ek]. exists (col p), k.
  split; [apply (column_ok m P p Hm Hp)|]. split; [exact Ek|].
  split; [now apply argmax_first_maximum|].
  rewrite (nth_indep _ 0 (g 0%nat)) by (rewrite length_map, length_seq; lia).
  rewrite map_nth, seq_nth by lia. unfold g. cbn [Nat.add]. now rewrite Ek.
Qed.

(** ** Counting equal entries *)

Lemma count_true_cons (b : bool) (bs : list bool) :
  Numpy.count_true (b :: bs) = (if b then 1 else 0) + Numpy.count_true bs.
Proof. unfold Numpy.count_true. destruct b; simpl List.length; lia. Qed.

Lemma count_true_le (bs : list bool) :
  0 <= Numpy.count_true bs <= Z.of_nat (List.length bs).
Proof.
  induction bs as [|b bs IH]; [unfold Numpy.count_true; simpl; lia|].
  rewrite count_true_cons. destruct b; simpl List.length; lia.
Qed.

Lemma equal_same_length (legacy : bool) (a b : list Z) :
  List.length a = List.length b ->
  Numpy.equal legacy a b = Ok (Numpy.Elementwise (Numpy.equalities a b)).
Proof. intro H. unfold Numpy.equal. now rewrite H, Nat.eqb_refl. Qed.

Lemma count_equalities_all (a : list Z) :
  forall b, List.length a = List.length b ->
    (Numpy.count_true (Numpy.equalities a b) = Z.of_nat (List.length a) <->
     forall p, (p < List.length a)%nat -> nth p a 0 = nth p b 0).
Proof.
  induction a as [|x a IH]; intros [|y b] Hlen; try discriminate.
  - split; [intros _ p Hp; simpl in Hp; lia|reflexivity].
  - injection Hlen as Hlen. specialize (IH b Hlen).
    unfold Numpy.equalities in *. cbn [combine map]. rewrite count_true_cons.
    pose proof (count_true_le (map (fun '(x, y) => x =? y) (combine a b))) as Hle.
    rewrite length_map, length_combine, <- Hlen, Nat.min_id in Hle.
    cbn [List.length]. rewrite Nat2Z.inj_succ.
    destruct (Z.eqb_spec x y) as [->|Hxy].
    + split.
      * intros Hc [|p] Hp; [reflexivity|]. simpl. apply IH; lia.
      * intro Hall. assert (Hc : Numpy.count_true
                                   (map (fun '(x, y) => x =? y) (combine a b))
                                 = Z.of_nat (List.length a)).
        { apply IH. intros p Hp. apply (Hall (S p)). lia. }
        lia.
    + split; [lia|]. intro Hall. exfalso. apply Hxy. apply (Hall 0%nat). lia.
Qed.

Lemma count_equalities_some (a : list Z) :
  forall b, List.length a = List.length b ->
    (Numpy.count_true (Numpy.equalities a b) <> Z.of_nat (List.length a) <->
     exists p, (p < List.length a)%nat /\ nth p a 0 <> nth p b 0).
Proof.
  intros b Hlen. split.
  - revert b Hlen. induction a as [|x a IH]; intros [|y b] Hlen Hc; try discriminate.
    + exfalso. apply Hc. reflexivity.
    + injection Hlen as Hlen.
      destruct (Z.eq_dec x y) as [->|Hxy].
      * destruct (IH b Hlen) as (p & Hp & Hne).
        { intro Hc'. apply Hc. unfold Numpy.equalities in *. cbn [combine map].
          rewrite count_true_cons, Z.eqb_refl. cbn [List.length].
          rewrite Nat2Z.inj_succ. lia. }
        exists (S p). split; [simpl; lia|exact Hne].
      * exists 0%nat. split; [simpl; lia|exact Hxy].
  - intros (p & Hp & Hne) Hc. apply Hne.
    now apply (proj1 (count_equalities_all a b Hlen) Hc).
Qed.

Lemma messages_differ : all_aligned_msg <> not_aligned_msg.
Proof. discriminate. Qed.

(** C3, as the code has it.  For a weight matrix with at least one class
    row and a column for each of the [P] prototypes, [P] rows of metadata
    and a network that declares [P] prototypes, the alignment check logs
    exactly one message and returns.  The message is the "all aligned" one
    exactly when, for every prototype, the first arg-max of its weight
    column is its class in the metadata (all [P] comparisons are equal),
    and the warning exactly when some prototype differs. *)
Theorem alignment_check_messages (w : World) (ppnet : PPNet)
    (info : list bb_row) (P : nat) :
  last_layer_weight ppnet <> [] ->
  Forall (fun row => List.length row = P) (last_layer_weight ppnet) ->
  List.length info = P ->
  num_prototypes ppnet = Z.of_nat P ->
  exists conn msg,
    alignment_check w ppnet (map prototype_class info) = ([Log msg], Ok conn) /\
    List.length conn = P /\
    (forall p, (p < P)%nat ->
       exists col k,
         Torch.column p (last_layer_weight ppnet) = Ok col /\
         first_maximum col k /\ nth p conn 0 = Z.of_nat k) /\
    (msg = all_aligned_msg <->
     forall p, (p < P)%nat -> nth p conn 0 = nth p (map prototype_class info) 0) /\
    (msg = not_aligned_msg <->
     exists p, (p < P)%nat /\ nth p conn 0 <> nth p (map prototype_class info) 0).
Proof.
  intros Hne Hrect Hinfo Hnum.
  destruct (argmax_dim0_ok _ P Hne Hrect) as (conn & Hconn & Hlen & Hcols).
  set (ident := map prototype_class info).
  assert (Hil : List.length conn = List.length ident)
    by (unfold ident; rewrite length_map; lia).
  pose proof (count_equalities_all conn ident Hil) as Hall.
  pose proof (count_equalities_some conn ident Hil) as Hsome.
  rewrite Hlen in Hall, Hsome.
  exists conn.
  exists (if Numpy.count_true (Numpy.equalities conn ident) =? Z.of_nat P
          then all_aligned_msg else not_aligned_msg).
  split; [|split; [exact Hlen|split]].
  - unfold alignment_check. rewrite Hconn. cbn [bind lift].
    rewrite (equal_same_length _ _ _ Hil). cbn [bind lift Numpy.sum].
    rewrite Hnum.
    now destruct (Numpy.count_true (Numpy.equalities conn ident) =? Z.of_nat P).
  - intros p Hp. destruct (Hcols p Hp) as (col & k & Hc & _ & Hf & Hn).
    now exists col, k.
  - destruct (Z.eqb_spec (Numpy.count_true (Numpy.equalities conn ident)) (Z.of_nat P))
      as [Hc|Hc]; split.
    + split; [intros _; now apply Hall|reflexivity].
    + split; [intro Hm; exfalso; exact (messages_differ Hm)|].
      intro Hex. exfalso. now apply Hsome.
    + split; [intro Hm; exfalso; exact (messages_differ (eq_sym Hm))|].
      intro Hp. exfalso. apply Hc. now apply Hall.
    + split; [intros _; now apply Hsome|reflexivity].
Qed.

Lemma alignment_check_messages_sample :
  exists conn msg,
    alignment_check Sample.world Sample.net
      (map prototype_class [Sample.row 10 0; Sample.row 11 1]) = ([Log msg], Ok conn) /\
    msg = all_aligned_msg.
Proof.
  destruct (alignment_check_messages Sample.world Sample.net
              [Sample.row 10 0; Sample.row 11 1] 2)
    as (conn & msg & Hrun & Hlen & _ & Hall & _).
  - discriminate.
  - repeat constructor.
  - reflexivity.
  - reflexivity.
  - exists conn, msg. split; [exact Hrun|].
    vm_compute in Hrun. injection Hrun as <- <-. reflexivity.
Defined.

(** C3 as it is written fails: nothing makes the metadata have as many
    rows as the network has prototypes.  With three rows for a network of
    two prototypes and NumPy 1.25 or later, the comparison of line 57
    raises [ValueError]: the check logs neither message and the run ends
    there. *)
Lemma alignment_check_aborts_on_length_mismatch :
  num_prototypes Sample.net = 2 /\
  np_load (Sample.world_three_rows false)
    "/saved_models/vgg19/003/checkpoints/../img/epoch-10/bb.npy"
  = Ok [Sample.row 10 0; Sample.row 11 1; Sample.row 12 1] /\
  alignment_check (Sample.world_three_rows false) Sample.net
    (map prototype_class [Sample.row 10 0; Sample.row 11 1; Sample.row 12 1])
  = ([], Raise (ValueError "operands could not be broadcast together")) /\
  outcome (run_analysis Sample.args (Sample.world_three_rows false))
  = Raise (ValueError "operands could not be broadcast together") /\
  ~ In (Log all_aligned_msg)
       (trace (run_analysis Sample.args (Sample.world_three_rows false))) /\
  ~ In (Log not_aligned_msg)
       (trace (run_analysis Sample.args (Sample.world_three_rows false))).
Proof.
  split; [reflexivity|]. split; [reflexivity|]. split; [reflexivity|].
  split; [vm_compute; reflexivity|].
  split; vm_compute; intro H;
    repeat (destruct H as [H|H]; [discriminate H|]); exact H.
Qed.

(** ** The stable ascending sort *)

Section Sorting.
Variable v : list Q.

Lemma insert_index_perm (i : nat) (l : list nat) :
  Permutation (Torch.insert_index (activation v) i l) (i :: l).
Proof.
  induction l as [|j r IH]; simpl; [reflexivity|].
  destruct (Qle_bool _ _); [reflexivity|].
  rewrite IH. apply perm_swap.
Qed.

Lemma sorted_before_le (i j : nat) :
  sorted_before v i j -> (activation v i <= activation v j)%Q.
Proof.
  intros [H|[H _]]; [now apply Qlt_le_weak|]. rewrite H. apply Qle_refl.
Qed.

Lemma insert_index_sorted (i : nat) (l : list nat) :
  StronglySorted (sorted_before v) l ->
  Forall (fun j => (i < j)%nat) l ->
  StronglySorted (sorted_before v) (Torch.insert_index (activation v) i l).
Proof.
  induction l as [|j r IH]; intros Hs Hi; simpl.
  - repeat constructor.
  - apply StronglySorted_inv in Hs. destruct Hs as [Hr Hj].
    inversion Hi as [|? ? Hij Hir]; subst.
    destruct (Qle_bool (activation v i) (activation v j)) eqn:E.
    + apply Qle_bool_iff in E.
      constructor; [now constructor|].
      assert (Hlow : forall x, (activation v j <= activation v x)%Q -> (i < x)%nat ->
                               sorted_before v i x).
      { intros x Hx Hlt.
        destruct (Qle_lt_or_eq _ _ (Qle_trans _ _ _ E Hx)) as [H|H];
          [now left|now right]. }
      constructor; [apply Hlow; [apply Qle_refl|exact Hij]|].
      rewrite Forall_forall in *. intros x Hx.
      apply Hlow; [apply sorted_before_le; now apply Hj|now apply Hir].
    + assert (Hlt : (activation v j < activation v i)%Q).
      { apply Qnot_le_lt. intro H. apply Qle_bool_iff in H. congruence. }
      constructor; [now apply IH|].
      apply (Permutation_Forall (Permutation_sym (insert_index_perm i r))).
      constructor; [now left|exact Hj].
  Qed.

(** The sort of the indices [a], [a + 1], ..., [a + n - 1]. *)
Lemma sort_seq_spec (n : nat) :
  forall a,
    let l := fold_right (Torch.insert_index (activation v)) [] (seq a n) in
    Permutation l (seq a n) /\ StronglySorted (sorted_before v) l.
Proof.
  induction n as [|n IH]; intro a; simpl.
  - split; [reflexivity|constructor].
  - destruct (IH (S a)) as [Hp Hs]. split.
    + rewrite insert_index_perm. now constructor.
    + apply insert_index_sorted; [exact Hs|].
      apply (Permutation_Forall (Permutation_sym Hp)).
      apply Forall_forall. intros j Hj. apply in_seq in Hj. lia.
Qed.

Lemma argsort_perm : Permutation (Torch.argsort v) (seq 0 (List.length v)).
Proof. apply (sort_seq_spec (List.length v) 0%nat). Qed.

Lemma argsort_sorted : StronglySorted (sorted_before v) (Torch.argsort v).
Proof. apply (sort_seq_spec (List.length v) 0%nat). Qed.



Lemma argsort_bound (i : nat) : In i (Torch.argsort v) -> (i < List.length v)%nat.
Proof.
  intro H. apply (Permutation_in _ argsort_perm) in H. apply in_seq in H. lia.
Qed.

End Sorting.

Lemma StronglySorted_snoc {A} (R : A -> A -> Prop) (l : list A) (x : A) :
  StronglySorted R l -> Forall (fun y => R y x) l -> StronglySorted R (l ++ [x]).
Proof.
  induction 1 as [|a l Hs IH Ha]; intro Hx; simpl.
  - repeat constructor.
  - inversion Hx; subst. constructor; [now apply IH|].
    apply Forall_app. split; [exact Ha|now repeat constructor].
Qed.

Lemma StronglySorted_rev {A} (R : A -> A -> Prop) (l : list A) :
  StronglySorted R l -> StronglySorted (fun x y => R y x) (rev l).
Proof.
  induction 1 as [|a l Hs IH Ha]; simpl; [constructor|].
  apply StronglySorted_snoc; [exact IH|]. now apply Forall_rev.
Qed.





(** ** Reading a list from its end *)







(** ** The most activated prototypes *)





(** ** The prototypes of a class *)













(** ** Activation decreases with distance *)

Section RealSimilarity.
Import Similarity.
Local Open Scope R_scope.



End RealSimilarity.



(** * Further properties of the run *)

(** ** What every run does and never does *)

Lemma Forall_trace_bind {A B} (P : event -> Prop) (m : M A) (f : A -> M B) :
  Forall P (trace m) -> (forall a, Forall P (trace (f a))) ->
  Forall P (trace (bind m f)).
Proof.
  intros Hm Hf. destruct m as [t [a|e]]; cbn [bind trace fst] in *; [|exact Hm].
  specialize (Hf a). destruct (f a) as [t' r]. cbn [trace fst] in *.
  apply Forall_app. now split.
Qed.

Lemma Forall_trace_lift {A} (P : event -> Prop) (r : result A) :
  Forall P (trace (lift r)).
Proof. constructor. Qed.

Lemma Forall_trace_emit (P : event -> Prop) (e : event) :
  P e -> Forall P (trace (emit e)).
Proof. intro H. now repeat constructor. Qed.

Lemma Forall_trace_assert (P : event -> Prop) (b : bool) (msg : string) :
  Forall P (trace (py_assert b msg)).
Proof. destruct b; constructor. Qed.

Lemma alignment_check_trace (P : event -> Prop) (w : World) (ppnet : PPNet)
    (ident : list Z) :
  P (Log all_aligned_msg) -> P (Log not_aligned_msg) ->
  Forall P (trace (alignment_check w ppnet ident)).
Proof.
  intros H1 H2. unfold alignment_check.
  apply Forall_trace_bind; [apply Forall_trace_lift|intro conn].
  apply Forall_trace_bind; [apply Forall_trace_lift|intro eqs].
  apply Forall_trace_bind; [|intros _; constructor].
  destruct (_ =? _); now apply Forall_trace_emit.
Qed.

Lemma analysis_prelude_effects (args : Namespace_args) (w : World) :
  Forall (fun e => prelude_effect e = true /\ is_verdict e = false)
         (trace (analysis_prelude args w)).
Proof.
  unfold analysis_prelude, log.
  apply Forall_trace_bind; [apply Forall_trace_emit; now split|intros _].
  apply Forall_trace_bind; [apply Forall_trace_lift|intro p].
  cbv zeta.
  do 6 (apply Forall_trace_bind; [apply Forall_trace_emit; now split|intros _]).
  apply Forall_trace_bind; [apply Forall_trace_lift|intro ppnet].
  apply Forall_trace_bind; [apply Forall_trace_lift|intro classes].
  apply Forall_trace_bind; [apply Forall_trace_assert|intros _].
  apply Forall_trace_bind; [apply Forall_trace_lift|intro info].
  apply Forall_trace_bind; [apply Forall_trace_emit; now split|intros _].
  apply Forall_trace_bind; [apply alignment_check_trace; now split|intro conn].
  apply Forall_trace_bind; [apply Forall_trace_lift|intro pil].
  apply Forall_trace_bind; [apply Forall_trace_lift|intro correct].
  destruct (forward ppnet _) as [logits min_distances].
  destruct (activations_of_distances ppnet min_distances _) as [acts pats].
  apply Forall_trace_bind; [apply Forall_trace_lift|intro predicted].
  do 3 (apply Forall_trace_bind; [apply Forall_trace_emit; now split|intros _]).
  destruct (Torch.sort acts). constructor.
Qed.

Lemma run_analysis_is_prelude (args : Namespace_args) (w : World) :
  trace (run_analysis args w) = trace (analysis_prelude args w) /\
  outcome (run_analysis args w)
  = match outcome (analysis_prelude args w) with
    | Ok _ => Raise (NameError "tqdm")
    | Raise e => Raise e
    end.
Proof.
  destruct (analysis_prelude args w) as [tr [st|e]] eqn:E.
  - rewrite (run_analysis_after_prelude _ _ _ _ E). now split.
  - unfold run_analysis, run_analysis_in. rewrite E. now split.
Qed.

(** X1.  No run of [run_analysis] returns: each ends in an exception.
    All a run ever does is set the environment variable, make a
    directory, open the logger, log lines other than the two verdicts and
    save the preprocessed image; it opens no [info.txt], writes no line of
    one, renders no prototype and never closes the logger. *)
Theorem run_analysis_never_returns (args : Namespace_args) (w : World) :
  (exists e, outcome (run_analysis args w) = Raise e) /\
  Forall (fun e => prelude_effect e = true /\ is_verdict e = false)
         (trace (run_analysis args w)).
Proof.
  destruct (run_analysis_is_prelude args w) as [Ht Ho]. split.
  - rewrite Ho. destruct (outcome (analysis_prelude args w)); eexists; reflexivity.
  - rewrite Ht. apply analysis_prelude_effects.
Qed.

Lemma trace_emit_bind {B} (e : event) (f : unit -> M B) :
  trace (bind (emit e) f) = e :: trace (f tt).
Proof. cbn [bind emit]. now destruct (f tt). Qed.

(** X2.  A run whose paths do not parse does nothing but set the
    environment variable, and ends in the parser's exception.  A run
    whose paths parse makes the analysis directory, opens the logger and
    logs the four lines of the head before anything else. *)
Theorem run_analysis_head (args : Namespace_args) (w : World) :
  match parse_paths (abspath w (img args)) (abspath w (model args)) with
  | Raise e =>
      run_analysis args w = ([SetEnv "CUDA_VISIBLE_DEVICES" (gpus args)], Raise e)
  | Ok p =>
      exists rest, trace (run_analysis args w) = (header_trace args p ++ rest)%list
  end.
Proof.
  destruct (parse_paths _ _) as [p|e] eqn:E.
  - rewrite (proj1 (run_analysis_is_prelude args w)).
    unfold analysis_prelude, log. rewrite E.
    rewrite trace_emit_bind. cbn [bind lift app]. cbv zeta.
    match goal with |- context [let '(t', r) := ?m in _] => destruct m as [t r] eqn:Em end.
    cbn [trace fst].
    assert (Ht : t = trace (t, r)) by reflexivity. rewrite <- Em in Ht.
    rewrite !trace_emit_bind in Ht. subst t. unfold header_trace.
    eexists. cbn [app]. reflexivity.
  - unfold run_analysis, run_analysis_in, analysis_prelude. rewrite E. reflexivity.
Qed.

(** ** The class of the test image *)

Lemma class_to_idx_none (classes : list string) (name : string) :
  class_to_idx classes name = None <-> ~ In name classes.
Proof.
  induction classes as [|c r IH]; simpl; [tauto|].
  destruct (String.eqb_spec c name) as [->|Hne].
  - split; [discriminate|]. intro H. exfalso. apply H. now left.
  - destruct (class_to_idx r name); simpl.
    + split; [discriminate|]. intro H. exfalso.
      assert (Hr : ~ In name r) by tauto. apply IH in Hr. discriminate.
    + split; [|reflexivity]. intros _ [H|H]; [congruence|]. now apply IH.
Qed.

(** X3.  When the directory of the test image is not one of the classes
    of the data set, a run that has loaded everything before ends in
    [KeyError] for that directory name at line 74: after the image is
    opened, before the network is applied, with the head of the log, the
    count of classes and the message of the alignment check logged. *)
Theorem run_analysis_unknown_class (args : Namespace_args) (w : World)
    (p : parsed_paths) (ppnet : PPNet) (classes : list string)
    (info : list bb_row) (t : list event) (conn : list Z) (pil : pil_image) :
  parse_paths (abspath w (img args)) (abspath w (model args)) = Ok p ->
  torch_load w (model args) = Ok ppnet ->
  image_folder_classes w (PyPath.join (PyPath.dirname (img_path p)) [".."]) = Ok classes ->
  path_exists w (load_img_dir_of args) = true ->
  np_load w (PyPath.join (load_img_dir_of args)
               ["epoch-" ++ PyStr.str (epoch p); "bb.npy"]) = Ok info ->
  alignment_check w ppnet (map prototype_class info) = (t, Ok conn) ->
  image_open w (img args) = Ok pil ->
  ~ In (img_class p) classes ->
  run_analysis args w
  = ((header_trace args p ++
      Log ("Prototypes are chosen from "
             ++ PyStr.str (Py.len_set (map prototype_class info)) ++ " classes")
      :: t)%list,
     Raise (KeyError (img_class p))).
Proof.
  intros Hp Hl Hf He Hn Hc Ho Hin. apply class_to_idx_none in Hin.
  unfold run_analysis, run_analysis_in, analysis_prelude, log.
  rewrite Hp. cbn [bind emit lift]. rewrite Hl, Hf. unfold py_assert.
  rewrite He. cbn [bind ret]. rewrite Hn, Hc, Ho, Hin. cbn [bind].
  unfold header_trace. cbn [app]. now rewrite app_nil_r.
Qed.

Lemma run_analysis_unknown_class_sample :
  exists p t,
    parse_paths "/data/test/Other/1.jpg"
                "/saved_models/vgg19/003/checkpoints/10_18push0.7822.pth" = Ok p /\
    ~ In (img_class p) ["Female"; "Male"] /\
    run_analysis
      {| gpus := "0"; img := "/data/test/Other/1.jpg";
         model := "/saved_models/vgg19/003/checkpoints/10_18push0.7822.pth";
         out := "/out"; top_prototypes := 1; top_classes := 1 |}
      Sample.world
    = (t, Raise (KeyError "Other")).
Proof.
  destruct (parse_paths "/data/test/Other/1.jpg"
              "/saved_models/vgg19/003/checkpoints/10_18push0.7822.pth")
    as [p|e] eqn:E; [|vm_compute in E; discriminate].
  destruct (alignment_check Sample.world Sample.net
              (map prototype_class [Sample.row 10 0; Sample.row 11 1]))
    as [t [conn|e]] eqn:Ec; [|vm_compute in Ec; discriminate].
  assert (Hcls : img_class p = "Other")
    by (vm_compute in E; injection E as <-; reflexivity).
  assert (Hin : ~ In (img_class p) ["Female"; "Male"]).
  { rewrite Hcls. intros [H|[H|[]]]; discriminate. }
  exists p. eexists. split; [reflexivity|]. split; [exact Hin|].
  rewrite <- Hcls.
  exact (run_analysis_unknown_class
           {| gpus := "0"; img := "/data/test/Other/1.jpg";
              model := "/saved_models/vgg19/003/checkpoints/10_18push0.7822.pth";
              out := "/out"; top_prototypes := 1; top_classes := 1 |}
           Sample.world p Sample.net ["Female"; "Male"]
           [Sample.row 10 0; Sample.row 11 1] t conn []
           E eq_refl eq_refl eq_refl eq_refl Ec eq_refl Hin).
Defined.

(** ** Paths that follow the convention *)

Lemma re_split_nonempty (s : string) : PyStr.re_split s <> [].
Proof.
  induction s as [|c r IH]; simpl; [discriminate|].
  destruct (PyStr.is_sep c); [discriminate|].
  destruct (PyStr.re_split r); [contradiction|discriminate].
Qed.

Lemma re_split_app_sep (a : string) (sep : ascii) (b : string) :
  PyStr.is_sep sep = true ->
  PyStr.re_split (a ++ String sep b) = (PyStr.re_split a ++ PyStr.re_split b)%list.
Proof.
  intro Hs. induction a as [|x a IH]; simpl.
  - now rewrite Hs.
  - destruct (PyStr.is_sep x); [now rewrite IH|].
    rewrite IH. pose proof (re_split_nonempty a) as Hne.
    destruct (PyStr.re_split a); [contradiction|reflexivity].
Qed.

Lemma re_split_no_separator (s : string) :
  no_separator s = true -> PyStr.re_split s = [s].
Proof.
  induction s as [|c r IH]; simpl; [reflexivity|]. intro H.
  apply andb_prop in H. destruct H as [Hc Hr].
  destruct (PyStr.is_sep c); [discriminate|]. now rewrite IH.
Qed.


Lemma last_n_app {A} (n : nat) (l l' : list A) :
  List.length l' = n -> PyStr.last_n n (l ++ l')%list = l'.
Proof.
  intros <-. unfold PyStr.last_n. rewrite length_app.
  replace (List.length l + List.length l' - List.length l')%nat
    with (List.length l + 0)%nat by lia.
  now rewrite skipn_app, Nat.add_0_r, skipn_all, Nat.sub_diag.
Qed.

(** X4.  For an image path [d/cls/name] and a checkpoint path
    [m/arch/run/ck/file], written with slashes or with backslashes, where
    the named components hold no separator and [file] has the epoch
    number [n], the parser returns exactly [cls], [name], [arch], [run],
    [file] and [n]; the directory [ck] and what comes before are
    ignored. *)
Theorem parse_paths_convention (sep : ascii)
    (d cls name m arch run ck file : string) (n : Z) :
  PyStr.is_sep sep = true ->
  no_separator cls = true -> no_separator name = true ->
  no_separator arch = true -> no_separator run = true ->
  no_separator ck = true -> no_separator file = true ->
  start_epoch_number file = Ok n ->
  parse_paths
    (d ++ String sep (cls ++ String sep name))
    (m ++ String sep (arch ++ String sep (run ++ String sep (ck ++ String sep file))))
  = Ok {| img_path := d ++ String sep (cls ++ String sep name);
          img_class := cls; img_name := name;
          model_base_architecture := arch; experiment_run := run;
          model_name := file; epoch := n |}.
Proof.
  intros Hs Hcls Hname Harch Hrun Hck Hfile Hn. unfold parse_paths.
  rewrite !re_split_app_sep by assumption.
  rewrite (re_split_no_separator cls), (re_split_no_separator name),
    (re_split_no_separator arch), (re_split_no_separator run),
    (re_split_no_separator ck), (re_split_no_separator file) by assumption.
  cbn [app].
  rewrite (last_n_app 2 (PyStr.re_split d) [cls; name]) by reflexivity.
  rewrite (last_n_app 4 (PyStr.re_split m) [arch; run; ck; file]) by reflexivity.
  cbn [Py.unpack2 Py.unpack4]. now rewrite Hn.
Qed.

Lemma parse_paths_convention_sample :
  parse_paths "C:\data\test\Male\1.jpg"
              "C:\saved_models\vgg19\003\checkpoints\10_18push0.7822.pth"
  = Ok {| img_path := "C:\data\test\Male\1.jpg";
          img_class := "Male"; img_name := "1.jpg";
          model_base_architecture := "vgg19"; experiment_run := "003";
          model_name := "10_18push0.7822.pth"; epoch := 10 |}.
Proof.
  apply (parse_paths_convention "\" "C:\data\test" "Male" "1.jpg"
           "C:\saved_models" "vgg19" "003" "checkpoints" "10_18push0.7822.pth" 10);
    reflexivity.
Defined.

(** ** The analysis directory lies under the output directory *)










(** ** The epoch number in general *)

Lemma take_digits_all_digits (s : string) :
  PyStr.all_digits (PyStr.take_digits s) = true.
Proof.
  induction s as [|c r IH]; simpl; [reflexivity|].
  destruct (PyStr.is_digit c) eqn:E; simpl; [now rewrite E|reflexivity].
Qed.

Lemma digit_value_nonneg (c : ascii) : PyStr.is_digit c = true -> 0 <= PyStr.digit_value c.
Proof.
  unfold PyStr.is_digit, PyStr.digit_value. intro H.
  apply andb_prop in H. destruct H as [H _]. apply Nat.leb_le in H. lia.
Qed.

Lemma int_acc_nonneg (s : string) :
  PyStr.all_digits s = true -> forall acc, 0 <= acc -> 0 <= PyStr.int_acc acc s.
Proof.
  induction s as [|c r IH]; cbn [PyStr.int_acc PyStr.all_digits];
    intros H acc Hacc; [exact Hacc|].
  apply andb_prop in H. destruct H as [Hc Hr]. apply IH; [exact Hr|].
  pose proof (digit_value_nonneg c Hc). lia.
Qed.

Lemma re_search_digits_all_digits (s run : string) :
  PyStr.re_search_digits s = Some run -> PyStr.all_digits run = true.
Proof.
  induction s as [|c r IH]; simpl; [discriminate|].
  destruct (PyStr.is_digit c) eqn:E; [|exact IH].
  intros [= <-]. simpl. now rewrite E, take_digits_all_digits.
Qed.

Lemma re_search_digits_no_digit (s : string) :
  PyStr.re_search_digits s = None <-> PyStr.no_digit s = true.
Proof.
  induction s as [|c r IH]; simpl; [tauto|].
  destruct (PyStr.is_digit c); simpl; [split; discriminate|exact IH].
Qed.

(** X6.  The epoch number is read from every file name that has a digit
    and from no other: without a digit line 25 ends in [AttributeError].
    The number read is never negative, since a sign before the digits is
    not part of the run. *)
Theorem start_epoch_number_cases (model_name : string) :
  match start_epoch_number model_name with
  | Ok n => PyStr.no_digit model_name = false /\ 0 <= n
  | Raise e =>
      PyStr.no_digit model_name = true /\
      e = AttributeError "'NoneType' object has no attribute 'group'"
  end.
Proof.
  unfold start_epoch_number.
  destruct (PyStr.re_search_digits model_name) as [run|] eqn:E.
  - split.
    + destruct (PyStr.no_digit model_name) eqn:En; [|reflexivity].
      apply re_search_digits_no_digit in En. congruence.
    + apply int_acc_nonneg; [|lia]. eapply re_search_digits_all_digits; eassumption.
  - split; [|reflexivity]. now apply re_search_digits_no_digit.
Qed.

(** ** The alignment check on arrays of different lengths *)

Lemma count_true_all (x : Z) (l : list Z) :
  Numpy.count_true (map (fun y => y =? x) l) = Z.of_nat (List.length l) <->
  Forall (fun y => y = x) l.
Proof.
  induction l as [|y l IH]; [split; [constructor|reflexivity]|].
  cbn [map List.length]. rewrite count_true_cons, Nat2Z.inj_succ.
  pose proof (count_true_le (map (fun y => y =? x) l)) as Hle.
  rewrite length_map in Hle.
  destruct (Z.eqb_spec y x) as [->|Hne]; split.
  - intro H. constructor; [reflexivity|]. apply IH. lia.
  - intro H. inversion H; subst. apply IH in H3. lia.
  - lia.
  - intro H. inversion H; subst. contradiction.
Qed.

(** X7.  With a single row of metadata and any number of prototypes, the
    comparison of line 57 broadcasts the one assigned class over all the
    prototypes: the check logs the "all aligned" message exactly when
    every prototype connects most strongly to that one class, although
    the numbers of rows and of prototypes differ. *)
Theorem alignment_check_single_row (w : World) (ppnet : PPNet) (r : bb_row)
    (conn : list Z) :
  Torch.argmax_dim0 (last_layer_weight ppnet) = Ok conn ->
  num_prototypes ppnet = Z.of_nat (List.length conn) ->
  exists msg,
    alignment_check w ppnet (map prototype_class [r]) = ([Log msg], Ok conn) /\
    (msg = all_aligned_msg <-> Forall (fun c => c = prototype_class r) conn) /\
    (msg = not_aligned_msg <-> ~ Forall (fun c => c = prototype_class r) conn).
Proof.
  intros Hconn Hnum.
  set (eqs := map (fun y => y =? prototype_class r) conn).
  assert (Heq : Numpy.equal (numpy_before_1_25 w) conn [prototype_class r]
                = Ok (Numpy.Elementwise eqs)).
  { unfold Numpy.equal, eqs. destruct conn as [|x [|x' conn']]; try reflexivity. }
  pose proof (count_true_all (prototype_class r) conn) as Hall. fold eqs in Hall.
  exists (if Numpy.count_true eqs =? Z.of_nat (List.length conn)
          then all_aligned_msg else not_aligned_msg).
  split; [|split].
  - unfold alignment_check. rewrite Hconn. cbn [bind lift map].
    rewrite Heq. cbn [bind lift Numpy.sum]. rewrite Hnum.
    now destruct (Numpy.count_true eqs =? Z.of_nat (List.length conn)).
  - destruct (Z.eqb_spec (Numpy.count_true eqs) (Z.of_nat (List.length conn))) as [Hc|Hc].
    + split; [intros _; now apply Hall|reflexivity].
    + split; [intro Hm; exfalso; exact (messages_differ (eq_sym Hm))|].
      intro H. exfalso. apply Hc. now apply Hall.
  - destruct (Z.eqb_spec (Numpy.count_true eqs) (Z.of_nat (List.length conn))) as [Hc|Hc].
    + split; [intro Hm; exfalso; exact (messages_differ Hm)|].
      intro H. exfalso. apply H. now apply Hall.
    + split; [|reflexivity]. intros _ H. apply Hc. now apply Hall.
Qed.

Lemma alignment_check_single_row_sample :
  exists msg,
    Torch.argmax_dim0 [[1; 1]; [0; 0]]%Q = Ok [0; 0] /\
    alignment_check Sample.world
      {| img_size := 224; prototype_shape := (2, 4, 1, 1); num_prototypes := 2;
         prototype_activation_function := Named "log";
         last_layer_weight := [[1; 1]; [0; 0]]%Q;
         prototype_class_identity := [[1; 0]; [1; 0]]%Q;
         distance_2_similarity := Qopp;
         forward := fun _ => ([], []);
         push_forward := fun _ => [] |}
      (map prototype_class [Sample.row 10 0]) = ([Log msg], Ok [0; 0]) /\
    msg = all_aligned_msg.
Proof.
  destruct (alignment_check_single_row Sample.world
              {| img_size := 224; prototype_shape := (2, 4, 1, 1); num_prototypes := 2;
                 prototype_activation_function := Named "log";
                 last_layer_weight := [[1; 1]; [0; 0]]%Q;
                 prototype_class_identity := [[1; 0]; [1; 0]]%Q;
                 distance_2_similarity := Qopp;
                 forward := fun _ => ([], []);
                 push_forward := fun _ => [] |}
              (Sample.row 10 0) [0; 0] eq_refl eq_refl)
    as (msg & Hrun & Hall & _).
  exists msg. split; [reflexivity|]. split; [exact Hrun|].
  apply Hall. repeat constructor.
Defined.

(** X8.  When the numbers of prototypes and of metadata rows differ and
    neither is 1, the comparison of line 57 cannot broadcast.  With NumPy
    1.25 or later it raises [ValueError] and the check logs nothing; with
    an earlier NumPy it is the scalar [False], the sum is 0 and the check
    logs the warning for every network with at least one prototype. *)
Theorem alignment_check_length_mismatch (w : World) (ppnet : PPNet)
    (ident conn : list Z) :
  Torch.argmax_dim0 (last_layer_weight ppnet) = Ok conn ->
  List.length conn <> List.length ident ->
  List.length conn <> 1%nat -> List.length ident <> 1%nat ->
  (numpy_before_1_25 w = false ->
   alignment_check w ppnet ident
   = ([], Raise (ValueError "operands could not be broadcast together"))) /\
  (numpy_before_1_25 w = true -> num_prototypes ppnet <> 0 ->
   alignment_check w ppnet ident = ([Log not_aligned_msg], Ok conn)).
Proof.
  intros Hconn Hlen H1 H2.
  assert (Heq : Numpy.equal (numpy_before_1_25 w) conn ident
                = if numpy_before_1_25 w then Ok (Numpy.Scalar false)
                  else Raise (ValueError "operands could not be broadcast together")).
  { unfold Numpy.equal. apply Nat.eqb_neq in Hlen. rewrite Hlen.
    destruct conn as [|x [|x' conn']]; destruct ident as [|y [|y' ident']];
      simpl in H1, H2; try congruence; reflexivity. }
  unfold alignment_check. rewrite Hconn. cbn [bind lift]. rewrite Heq.
  split; intros ->.
  - reflexivity.
  - intro Hnum. cbn [bind lift Numpy.sum].
    apply not_eq_sym, Z.eqb_neq in Hnum. now rewrite Hnum.
Qed.

Lemma alignment_check_length_mismatch_sample :
  alignment_check (Sample.world_three_rows false) Sample.net
    (map prototype_class [Sample.row 10 0; Sample.row 11 1; Sample.row 12 1])
  = ([], Raise (ValueError "operands could not be broadcast together")) /\
  alignment_check (Sample.world_three_rows true) Sample.net
    (map prototype_class [Sample.row 10 0; Sample.row 11 1; Sample.row 12 1])
  = ([Log not_aligned_msg], Ok [0; 1]).
Proof.
  split.
  - apply (proj1 (alignment_check_length_mismatch (Sample.world_three_rows false)
                    Sample.net [0; 1; 1] [0; 1] eq_refl
                    ltac:(discriminate) ltac:(discriminate) ltac:(discriminate))).
    reflexivity.
  - apply (proj2 (alignment_check_length_mismatch (Sample.world_three_rows true)
                    Sample.net [0; 1; 1] [0; 1] eq_refl
                    ltac:(discriminate) ltac:(discriminate) ltac:(discriminate)));
      [reflexivity|discriminate].
Defined.

(** ** More on the most activated prototypes *)









(** ** The ranking within a class and the global ranking *)











(** ** The top class and the predicted class *)

(** X13.  When one logit is strictly larger than all the others, the
    first of the top classes of line 148 is the predicted class of line
    86. *)
Theorem top_class_is_predicted_class (logits : list Q) (k : Z)
    (c : nat) (cs : list nat) (m : nat) :
  Torch.topk_indices logits k = Ok (c :: cs) ->
  Torch.argmax logits = Ok m ->
  (forall j, (j < List.length logits)%nat -> j <> m ->
             (activation logits j < activation logits m)%Q) ->
  c = m.
Proof.
  intros Htop Hmax Huniq.
  apply argmax_first_maximum in Hmax. destruct Hmax as [Hm _].
  unfold Torch.topk_indices in Htop.
  destruct (_ || _)%bool; [discriminate|]. injection Htop as Htop.
  pose proof (StronglySorted_rev (sorted_before logits) _ (argsort_sorted logits)) as Hs.
  assert (Hin : In m (rev (Torch.argsort logits))).
  { apply (proj1 (in_rev _ m)).
    apply (Permutation_in _ (Permutation_sym (argsort_perm logits))), in_seq. lia. }
  destruct (rev (Torch.argsort logits)) as [|h rest] eqn:Erev.
  - destruct (Z.to_nat k); discriminate.
  - destruct (Z.to_nat k) as [|n]; [discriminate|]. simpl in Htop.
    injection Htop as <- _.
    destruct Hin as [Hin|Hin]; [assumption|].
    apply StronglySorted_inv in Hs. destruct Hs as [_ Hh].
    rewrite Forall_forall in Hh. specialize (Hh m Hin).
    destruct (Nat.eq_dec h m) as [Heq|Hne]; [assumption|]. exfalso.
    assert (Hhl : (h < List.length logits)%nat).
    { apply (argsort_bound logits), (proj2 (in_rev _ h)). rewrite Erev. now left. }
    specialize (Huniq h Hhl Hne).
    destruct Hh as [Hh|[Hh _]].
    + exact (Qlt_irrefl _ (Qlt_trans _ _ _ Hh Huniq)).
    + rewrite Hh in Huniq. exact (Qlt_irrefl _ Huniq).
Qed.

Lemma top_class_is_predicted_class_sample :
  exists c cs m,
    Torch.topk_indices [1; 3; 2]%Q 2 = Ok (c :: cs) /\
    Torch.argmax [1; 3; 2]%Q = Ok m /\
    c = m.
Proof.
  exists 1%nat, [2%nat], 1%nat. split; [reflexivity|]. split; [reflexivity|].
  apply (top_class_is_predicted_class [1; 3; 2]%Q 2 1%nat [2%nat] 1%nat);
    [reflexivity|reflexivity|].
  intros [|[|[|j]]] Hj Hne; simpl in Hj; try lia; try congruence;
    unfold activation; simpl; reflexivity.
Defined.

(** ** A count of top classes out of range *)

(** X14.  Lines 145 to 148 with a count of top classes outside the
    classes of the data set.  A count that reaches the number of classes
    fails the assertion of line 146 before anything is logged.  A
    negative count passes the assertion, the line of line 147 is logged,
    and [torch.topk] then raises [RuntimeError].  In both cases no
    directory of a class is made. *)
Theorem class_prototypes_part_out_of_range (G : list string)
    (args : Namespace_args) (st : analysis_state) :
  top_classes args < 0 \/ Z.of_nat (List.length (st_classes st)) <= top_classes args ->
  class_prototypes_part G args st
  = if top_classes args <? 0
    then ([Log ("Prototypes from top-" ++ PyStr.str (top_classes args) ++ " classes:")],
          Raise (RuntimeError "selected index k out of range"))
    else ([], Raise (AssertionError "k must be less than the number of available classes")).
Proof.
  intro H. unfold class_prototypes_part, py_assert, log.
  destruct (Z.ltb_spec (top_classes args) 0) as [Hneg|Hpos].
  - assert (E : (top_classes args <? Z.of_nat (List.length (st_classes st))) = true)
      by (apply Z.ltb_lt; lia).
    rewrite E. cbn [bind ret emit]. unfold Torch.topk_indices.
    assert (E' : (top_classes args <? 0) = true) by (apply Z.ltb_lt; lia).
    rewrite E'. reflexivity.
  - assert (E : (top_classes args <? Z.of_nat (List.length (st_classes st))) = false)
      by (apply Z.ltb_ge; lia).
    rewrite E. reflexivity.
Qed.

Lemma class_prototypes_part_out_of_range_sample :
  exists tr st,
    analysis_prelude Sample.args Sample.world = (tr, Ok st) /\
    class_prototypes_part Sample.repaired_globals
      {| gpus := "0"; img := "/data/test/Male/1.jpg";
         model := "/saved_models/vgg19/003/checkpoints/10_18push0.7822.pth";
         out := "/out"; top_prototypes := 1; top_classes := -1 |} st
    = ([Log "Prototypes from top--1 classes:"],
       Raise (RuntimeError "selected index k out of range")).
Proof.
  destruct (analysis_prelude Sample.args Sample.world) as [tr [st|e]] eqn:E;
    [|vm_compute in E; discriminate].
  exists tr, st. split; [reflexivity|].
  apply (class_prototypes_part_out_of_range Sample.repaired_globals
           {| gpus := "0"; img := "/data/test/Male/1.jpg";
              model := "/saved_models/vgg19/003/checkpoints/10_18push0.7822.pth";
              out := "/out"; top_prototypes := 1; top_classes := -1 |} st).
  left. cbn. lia.
Defined.

(** ** Where [bb.npy] is read *)

Lemma dirname_aux_no_slash (f : string) :
  no_slash f = true -> PyPath.dirname_aux f = (EmptyString, EmptyString).
Proof.
  induction f as [|c r IH]; simpl; [reflexivity|]. intro H.
  apply andb_prop in H. destruct H as [Hc Hr]. rewrite (IH Hr). simpl.
  now destruct (Ascii.eqb c "/").
Qed.

Lemma ends_with_slash_cons (c : ascii) (r : string) :
  r <> EmptyString -> PyPath.ends_with_slash (String c r) = PyPath.ends_with_slash r.
Proof. destruct r; [congruence|reflexivity]. Qed.

Lemma dirname_aux_dir (f : string) (dir : string) :
  no_slash f = true -> dir <> EmptyString -> PyPath.ends_with_slash dir = false ->
  PyPath.dirname_aux (dir ++ String "/" f) = (dir ++ "/", dir).
Proof.
  intros Hf. induction dir as [|c r IH]; intros Hne Hend; [congruence|].
  destruct r as [|c' r'].
  - simpl in Hend. cbn [append PyPath.dirname_aux].
    rewrite (dirname_aux_no_slash f Hf). cbn. now rewrite Hend.
  - rewrite ends_with_slash_cons in Hend by discriminate.
    change ((String c (String c' r')) ++ String "/" f)
      with (String c ((String c' r') ++ String "/" f)).
    cbn [PyPath.dirname_aux]. rewrite IH by (assumption || discriminate).
    cbn. now rewrite andb_false_r.
Qed.

Lemma all_slashes_prefix (dir x : string) :
  dir <> EmptyString -> PyPath.ends_with_slash dir = false ->
  PyPath.all_slashes (dir ++ x) = false.
Proof.
  induction dir as [|c r IH]; intros Hne Hend; [congruence|].
  destruct r as [|c' r'].
  - simpl in *. now rewrite Hend.
  - rewrite ends_with_slash_cons in Hend by discriminate.
    change ((String c (String c' r')) ++ x) with (String c ((String c' r') ++ x)).
    cbn [PyPath.all_slashes]. rewrite IH by (assumption || discriminate).
    apply andb_false_r.
Qed.

Lemma dirname_of_file (dir f : string) :
  no_slash f = true -> dir <> EmptyString -> PyPath.ends_with_slash dir = false ->
  PyPath.dirname (dir ++ String "/" f) = dir.
Proof.
  intros Hf Hne Hend. unfold PyPath.dirname.
  rewrite (dirname_aux_dir f dir Hf Hne Hend).
  rewrite (all_slashes_prefix dir "/" Hne Hend).
  destruct dir; [congruence|reflexivity].
Qed.

Lemma ends_with_slash_app (a : string) (c : ascii) (b : string) :
  PyPath.ends_with_slash (a ++ String c b) = PyPath.ends_with_slash (String c b).
Proof.
  induction a as [|x a IH]; [reflexivity|].
  change (String x a ++ String c b) with (String x (a ++ String c b)).
  rewrite ends_with_slash_cons; [exact IH|]. destruct a; discriminate.
Qed.

Lemma join2_plain (path : string) (c : ascii) (b : string) :
  path <> EmptyString -> PyPath.ends_with_slash path = false ->
  Ascii.eqb c "/" = false ->
  PyPath.join2 path (String c b) = path ++ "/" ++ String c b.
Proof.
  intros Hne Hend Hc. unfold PyPath.join2. cbn [PyPath.starts_with_slash].
  rewrite Hc, Hend. destruct path; [congruence|reflexivity].
Qed.

Lemma string_of_uint_no_final_slash (d : Decimal.uint) :
  PyPath.ends_with_slash (NilEmpty.string_of_uint d) = false.
Proof.
  induction d; simpl; try reflexivity;
    destruct (NilEmpty.string_of_uint d); simpl in *; auto.
Qed.

Lemma str_no_final_slash (n : Z) : PyPath.ends_with_slash (PyStr.str n) = false.
Proof.
  unfold PyStr.str, NilZero.string_of_int, NilZero.string_of_uint.
  destruct (Z.to_int n) as [d|d].
  - destruct d; try reflexivity; apply string_of_uint_no_final_slash.
  - destruct d; try reflexivity;
      (rewrite ends_with_slash_cons;
       [apply string_of_uint_no_final_slash|simpl; discriminate]).
Qed.

Lemma append_assoc (a b c : string) : (a ++ b) ++ c = a ++ (b ++ c).
Proof. induction a as [|x a IH]; simpl; [reflexivity|now rewrite IH]. Qed.

Lemma append_not_empty (a : string) (c : ascii) (b : string) :
  a ++ String c b <> EmptyString.
Proof. destruct a; discriminate. Qed.

(** X15.  For a checkpoint given as [dir/file], where [file] has no
    slash and [dir] is not empty and does not end in a slash, the metadata
    of epoch [e] are read from [dir/../img/epoch-e/bb.npy]: the path is
    made from the checkpoint argument as it was typed, not from its
    absolute form. *)
Theorem bb_npy_location (args : Namespace_args) (dir file : string) (e : Z) :
  model args = dir ++ String "/" file ->
  no_slash file = true -> dir <> EmptyString -> PyPath.ends_with_slash dir = false ->
  load_img_dir_of args = dir ++ "/../img" /\
  PyPath.join (load_img_dir_of args) ["epoch-" ++ PyStr.str e; "bb.npy"]
  = dir ++ "/../img/epoch-" ++ PyStr.str e ++ "/bb.npy".
Proof.
  intros Hm Hf Hne Hend.
  assert (Hload : load_img_dir_of args = dir ++ "/../img").
  { unfold load_img_dir_of. rewrite Hm, (dirname_of_file dir file Hf Hne Hend).
    unfold PyPath.join. cbn [fold_left].
    rewrite (join2_plain dir "." "." Hne Hend eq_refl).
    rewrite join2_plain; [|apply append_not_empty|apply ends_with_slash_app|reflexivity].
    now rewrite append_assoc. }
  split; [exact Hload|]. rewrite Hload.
  unfold PyPath.join. cbn [fold_left].
  assert (H1 : PyPath.join2 (dir ++ "/../img") ("epoch-" ++ PyStr.str e)
               = dir ++ "/../img/epoch-" ++ PyStr.str e).
  { change ("epoch-" ++ PyStr.str e) with (String "e" ("poch-" ++ PyStr.str e)).
    rewrite join2_plain; [|apply append_not_empty|apply ends_with_slash_app|reflexivity].
    now rewrite append_assoc. }
  rewrite H1.
  assert (Hend' : PyPath.ends_with_slash (dir ++ "/../img/epoch-" ++ PyStr.str e) = false).
  { change (dir ++ "/../img/epoch-" ++ PyStr.str e)
      with (dir ++ String "/" ("../img/epoch" ++ String "-" (PyStr.str e))).
    rewrite ends_with_slash_app.
    change (String "/" ("../img/epoch" ++ String "-" (PyStr.str e)))
      with ("/../img/epoch" ++ String "-" (PyStr.str e)).
    rewrite ends_with_slash_app.
    destruct (PyStr.str e) eqn:Es; [reflexivity|].
    rewrite ends_with_slash_cons by discriminate.
    rewrite <- Es. apply str_no_final_slash. }
  rewrite join2_plain; [|apply append_not_empty|exact Hend'|reflexivity].
  now rewrite !append_assoc.
Qed.

Lemma bb_npy_location_sample :
  load_img_dir_of Sample.args = "/saved_models/vgg19/003/checkpoints/../img" /\
  PyPath.join (load_img_dir_of Sample.args) ["epoch-" ++ PyStr.str 10; "bb.npy"]
  = "/saved_models/vgg19/003/checkpoints" ++ "/../img/epoch-" ++ PyStr.str 10 ++ "/bb.npy".
Proof.
  apply (bb_npy_location Sample.args "/saved_models/vgg19/003/checkpoints"
           "10_18push0.7822.pth" 10); [reflexivity|reflexivity|discriminate|reflexivity].
Defined.

(** ** Runs that reach the first loop *)

Lemma alignment_check_ok (w : World) (ppnet : PPNet) (ident : list Z) (P : nat) :
  last_layer_weight ppnet <> [] ->
  Forall (fun row => List.length row = P) (last_layer_weight ppnet) ->
  List.length ident = P ->
  exists t conn, alignment_check w ppnet ident = (t, Ok conn).
Proof.
  intros Hne Hrect Hlen.
  destruct (argmax_dim0_ok _ P Hne Hrect) as (conn & Hconn & Hcl & _).
  unfold alignment_check. rewrite Hconn. cbn [bind lift].
  rewrite equal_same_length by lia. cbn [bind lift].
  destruct (_ =? _); cbn; eexists; eexists; reflexivity.
Qed.

Lemma class_to_idx_some (classes : list string) (name : string) :
  In name classes -> exists k, class_to_idx classes name = Some k.
Proof.
  intro H. destruct (class_to_idx classes name) as [k|] eqn:E; [now exists k|].
  apply class_to_idx_none in E. contradiction.
Qed.

(** X16.  When the paths parse, the network, the data set, [bb.npy] and
    the image load, the directory of prototype images exists, the weight
    matrix has a class row and a column for each row of [bb.npy], the
    directory of the image is a class of the data set and the network
    gives at least one logit, the steps before the first loop all
    complete, and the run then ends in [NameError] for [tqdm]. *)
Theorem run_analysis_reaches_first_loop (args : Namespace_args) (w : World)
    (p : parsed_paths) (ppnet : PPNet) (classes : list string)
    (info : list bb_row) (pil : pil_image) :
  parse_paths (abspath w (img args)) (abspath w (model args)) = Ok p ->
  torch_load w (model args) = Ok ppnet ->
  image_folder_classes w (PyPath.join (PyPath.dirname (img_path p)) [".."]) = Ok classes ->
  path_exists w (load_img_dir_of args) = true ->
  np_load w (PyPath.join (load_img_dir_of args)
               ["epoch-" ++ PyStr.str (epoch p); "bb.npy"]) = Ok info ->
  image_open w (img args) = Ok pil ->
  last_layer_weight ppnet <> [] ->
  Forall (fun row => List.length row = List.length info) (last_layer_weight ppnet) ->
  In (img_class p) classes ->
  fst (forward ppnet (preprocess w (img_size ppnet) pil)) <> [] ->
  exists tr st,
    analysis_prelude args w = (tr, Ok st) /\
    run_analysis args w = (tr, Raise (NameError "tqdm")).
Proof.
  intros Hp Hl Hf He Hn Ho Hne Hrect Hin Hlogits.
  destruct (alignment_check_ok w ppnet (map prototype_class info)
              (List.length info) Hne Hrect (length_map _ _)) as (t & conn & Hc).
  destruct (class_to_idx_some _ _ Hin) as [k Hk].
  assert (Hpre : exists tr st, analysis_prelude args w = (tr, Ok st)).
  { unfold analysis_prelude, log.
    rewrite Hp. cbn [bind emit lift]. rewrite Hl, Hf. unfold py_assert.
    rewrite He. cbn [bind ret]. rewrite Hn, Hc, Ho, Hk. cbn [bind].
    destruct (forward ppnet _) as [logits min_distances].
    destruct (activations_of_distances ppnet min_distances _) as [acts pats].
    cbn [fst] in Hlogits. destruct logits as [|x logits]; [congruence|].
    cbn [Torch.argmax bind]. destruct (Torch.sort acts).
    cbn [bind emit ret]. eexists. eexists. reflexivity. }
  destruct Hpre as (tr & st & Hpre). exists tr, st. split; [exact Hpre|].
  exact (run_analysis_after_prelude _ _ _ _ Hpre).
Qed.

Lemma run_analysis_reaches_first_loop_sample :
  exists tr, run_analysis Sample.args Sample.world = (tr, Raise (NameError "tqdm")).
Proof.
  destruct (parse_paths (abspath Sample.world (img Sample.args))
                        (abspath Sample.world (model Sample.args)))
    as [p|e] eqn:E; [|vm_compute in E; discriminate].
  assert (Hcls : img_class p = "Male")
    by (vm_compute in E; injection E as <-; reflexivity).
  destruct (run_analysis_reaches_first_loop Sample.args Sample.world p Sample.net
              ["Female"; "Male"] [Sample.row 10 0; Sample.row 11 1] [])
    as (tr & st & _ & Hrun);
    try reflexivity; try assumption.
  - discriminate.
  - repeat constructor.
  - rewrite Hcls. right. now left.
  - discriminate.
  - now exists tr.
Defined.
